(** * The progress tracker of [tools/progress_tracker.py]

    A shallow embedding of [ProgressTracker], [TaskPlan] and [TaskStep]:
    the storage directory is a finite map from file paths to the plan each
    file holds, every method is a computation in a state-and-exception
    monad over that map, and the wall clock read by [datetime.now()] is an
    explicit argument [now] of the methods that read it.

    The tracker is embedded twice.  The first embedding follows the logic
    of the methods: payloads are the JSON documents the files hold, every
    write succeeds, and a task id names its file by string concatenation.
    The second, [Wire], keeps the same methods and puts back what the
    first leaves out: payloads are Python values, which [json.dump] may
    refuse or change, [open] and the write itself may fail, and a failed
    write leaves a partial file.  What depends on that (the round trip of
    a checkpoint, what a raising call leaves behind) is stated over
    [Wire]. *)

From Stdlib Require Import ZArith Ascii String Bool Lia.
From Stdlib Require Import Floats.SpecFloat.
From stdpp Require Import gmap strings list fin_maps pretty.

Set Warnings "-register-all".
Local Open Scope string_scope.
Local Open Scope Z_scope.

(** ** Python values that reach the tracker *)

(** Payloads ([metadata], [output], checkpoint data) are typed
    [Dict[str, Any]] and go through [json.dump] and [json.load] on every
    call, so they are modelled here as the JSON documents the files hold;
    the Python values they are written from are those of [Wire.PyVal]
    below.  A [dict] is a finite map with string keys: equality of maps is
    Python's [==] on dicts. *)
Inductive JSON : Type :=
| JNull
| JBool (b : bool)
| JInt (z : Z)
| JFloat (f : spec_float)
| JStr (s : string)
| JList (l : list JSON)
| JDict (d : gmap string JSON).

Abbreviation dict := (gmap string JSON).

(** [bool(d)] for a dict: [len(d) != 0]. *)
Definition dict_truthy (d : dict) : bool := negb (Nat.eqb (size d) 0).

(** [bool(o)] for an [Optional[Dict]]: [None] and [{}] are falsy. *)
Definition opt_dict_truthy (o : option dict) : bool :=
  match o with
  | None => false
  | Some d => dict_truthy d
  end.

(** [o or {}] *)
Definition or_empty (o : option dict) : dict :=
  match o with
  | Some d => if dict_truthy d then d else ∅
  | None => ∅
  end.

(** The exceptions the tracker's code can raise. *)
Inductive exn : Type :=
| ValueError (msg : string)
| IndexError
| ZeroDivisionError
| OverflowError
| AttributeError.

Inductive result (A : Type) : Type :=
| Ok (a : A)
| Raise (e : exn).
Arguments Ok {A} a.
Arguments Raise {A} e.

(** *** Lists: [l[i]] with Python's negative indices *)

Definition norm_index (len : nat) (i : Z) : option nat :=
  if (0 <=? i) && (i <? Z.of_nat len) then Some (Z.to_nat i)
  else if (- Z.of_nat len <=? i) && (i <? 0) then Some (Z.to_nat (Z.of_nat len + i))
  else None.

(** The object [l[i]] and the position of the list that holds it. *)
Definition list_locate {A : Type} (l : list A) (i : Z) : result (nat * A) :=
  match norm_index (length l) i with
  | Some n =>
      match l !! n with
      | Some x => Ok (n, x)
      | None => Raise IndexError
      end
  | None => Raise IndexError
  end.

Definition list_getitem {A : Type} (l : list A) (i : Z) : result A :=
  match list_locate l i with
  | Ok (_, x) => Ok x
  | Raise e => Raise e
  end.

(** *** Floats: [int / int], [float * int] and [round(x, ndigits)]

    Python floats are IEEE 754 binary64; the Standard Library's
    [SpecFloat] gives their arithmetic on integers. *)
Module PyFloat.

Definition prec : Z := 53.
Definition emax : Z := 1024.

(** The float nearest to [n / d] with sign [s], for [0 <= n], [0 < d]. *)
Definition of_ratio (s : bool) (n d : Z) : spec_float :=
  if n =? 0 then S754_zero s
  else
    let '(mz, ez, lz) := SFdiv_core_binary prec emax n 0 d 0 in
    binary_round_aux prec emax s mz ez lz.

Definition of_int (z : Z) : spec_float :=
  binary_normalize prec emax z 0 false.

(** [a / b] on ints: the correctly rounded quotient. *)
Definition int_truediv (a b : Z) : result spec_float :=
  if b =? 0 then Raise ZeroDivisionError
  else
    match of_ratio (xorb (a <? 0) (b <? 0)) (Z.abs a) (Z.abs b) with
    | S754_infinity _ => Raise OverflowError
    | q => Ok q
    end.

(** [x * k] for a float [x] and an int [k], which becomes a float first. *)
Definition mul_int (x : spec_float) (k : Z) : spec_float :=
  SFmul prec emax x (of_int k).

(** The integer nearest to [m * 2^e * k], ties to the even one. *)
Definition nearest_even (m : positive) (e : Z) (k : Z) : Z :=
  let n := Z.pos m * k in
  if 0 <=? e then n * 2 ^ e
  else
    let d := 2 ^ (- e) in
    let q := n / d in
    match (2 * (n mod d)) ?= d with
    | Lt => q
    | Gt => q + 1
    | Eq => if Z.even q then q else q + 1
    end.

(** [round(x, ndigits)] for [0 <= ndigits]: the decimal with [ndigits]
    fractional digits nearest to [x] (ties to even), read back as the
    nearest float; infinities and NaN round to themselves. *)
Definition round (x : spec_float) (ndigits : Z) : spec_float :=
  match x with
  | S754_finite s m e =>
      of_ratio s (nearest_even m e (10 ^ ndigits)) (10 ^ ndigits)
  | _ => x
  end.

End PyFloat.

(** ** The data model *)

(** [@dataclass class TaskStep] *)
Record TaskStep : Type := mkTaskStep {
  id : string;
  description : string;
  status : string;
  started_at : option string;
  completed_at : option string;
  error : option string;
  output : option dict
}.

(** [@dataclass class TaskPlan] *)
Record TaskPlan : Type := mkTaskPlan {
  task_id : string;
  title : string;
  steps : list TaskStep;
  created_at : string;
  updated_at : string;
  total_steps : Z;
  completed_steps : Z;
  current_step_index : Z;
  metadata : dict
}.

(** Attribute assignments, one function per assigned field. *)
Definition set_started_at (v : option string) (s : TaskStep) : TaskStep :=
  mkTaskStep (id s) (description s) (status s) v (completed_at s) (error s) (output s).
Definition set_completed_at (v : option string) (s : TaskStep) : TaskStep :=
  mkTaskStep (id s) (description s) (status s) (started_at s) v (error s) (output s).
Definition set_error (v : option string) (s : TaskStep) : TaskStep :=
  mkTaskStep (id s) (description s) (status s) (started_at s) (completed_at s) v (output s).
Definition set_status (v : string) (s : TaskStep) : TaskStep :=
  mkTaskStep (id s) (description s) v (started_at s) (completed_at s) (error s) (output s).
Definition set_output (v : option dict) (s : TaskStep) : TaskStep :=
  mkTaskStep (id s) (description s) (status s) (started_at s) (completed_at s) (error s) v.

Definition set_steps (v : list TaskStep) (p : TaskPlan) : TaskPlan :=
  mkTaskPlan (task_id p) (title p) v (created_at p) (updated_at p)
    (total_steps p) (completed_steps p) (current_step_index p) (metadata p).
Definition set_updated_at (v : string) (p : TaskPlan) : TaskPlan :=
  mkTaskPlan (task_id p) (title p) (steps p) (created_at p) v
    (total_steps p) (completed_steps p) (current_step_index p) (metadata p).
Definition set_completed_steps (v : Z) (p : TaskPlan) : TaskPlan :=
  mkTaskPlan (task_id p) (title p) (steps p) (created_at p) (updated_at p)
    (total_steps p) v (current_step_index p) (metadata p).
Definition set_current_step_index (v : Z) (p : TaskPlan) : TaskPlan :=
  mkTaskPlan (task_id p) (title p) (steps p) (created_at p) (updated_at p)
    (total_steps p) (completed_steps p) v (metadata p).
Definition set_metadata (v : dict) (p : TaskPlan) : TaskPlan :=
  mkTaskPlan (task_id p) (title p) (steps p) (created_at p) (updated_at p)
    (total_steps p) (completed_steps p) (current_step_index p) v.

(** [step.status == s] *)
Definition status_is (step : TaskStep) (s : string) : bool :=
  String.eqb (status step) s.

(** ** Storage and the monad of the methods *)

(** The files under the storage roots: path to content.  A plan file holds
    [json.dump(asdict(plan))], and [load_plan] rebuilds the dataclasses
    from it field by field, so a file's content is the plan itself. *)
Abbreviation FS := (gmap string TaskPlan).

(** A method reads and writes files and may raise. *)
Definition M (A : Type) : Type := FS -> result A * FS.

Definition ret {A : Type} (a : A) : M A := fun fs => (Ok a, fs).
Definition raise {A : Type} (e : exn) : M A := fun fs => (Raise e, fs).
Definition bind {A B : Type} (m : M A) (k : A -> M B) : M B :=
  fun fs =>
    match m fs with
    | (Ok a, fs') => k a fs'
    | (Raise e, fs') => (Raise e, fs')
    end.
Definition lift {A : Type} (r : result A) : M A := fun fs => (r, fs).
(** Reading and writing a plan file, when both succeed; [Wire._save_plan]
    and [Wire.load_plan] have the ways they fail. *)
Definition read_file (path : string) : M (option TaskPlan) :=
  fun fs => (Ok (fs !! path), fs).
Definition write_file (path : string) (p : TaskPlan) : M unit :=
  fun fs => (Ok tt, <[path := p]> fs).

Notation "'do' x <- m ; k" := (bind m (fun x => k))
  (at level 10, x name, m at level 100, k at level 200).
Notation "m ;; k" := (bind m (fun _ => k))
  (at level 100, k at level 200, right associativity).

(** ** [class ProgressTracker] *)

(** The only attribute is the storage root chosen by [__init__]. *)
Record ProgressTracker : Type := mkTracker { state_dir : string }.

(** [self.state_dir / f"{task_id}.json"], for a [task_id] that is a plain
    file name ([Wire.plain]): [pathlib] collapses ["./"] and ["//"] and
    lets an absolute [task_id] leave the storage root. *)
Definition plan_file (self : ProgressTracker) (task_id : string) : string :=
  state_dir self +:+ "/" +:+ task_id +:+ ".json".

Definition _save_plan (self : ProgressTracker) (plan : TaskPlan) : M unit :=
  write_file (plan_file self (task_id plan)) plan.

Definition load_plan (self : ProgressTracker) (task_id : string)
  : M (option TaskPlan) :=
  read_file (plan_file self task_id).

Definition new_step (task_id : string) (i : nat) (desc : string) : TaskStep :=
  {| id := task_id +:+ "_step_" +:+ pretty i;
     description := desc;
     status := "pending";
     started_at := None;
     completed_at := None;
     error := None;
     output := None |}.

Definition create_plan (self : ProgressTracker) (now : string)
    (task_id title : string) (steps : list string) (metadata : option dict)
  : M TaskPlan :=
  let task_steps := imap (new_step task_id) steps in
  let plan :=
    {| task_id := task_id;
       title := title;
       steps := task_steps;
       created_at := now;
       updated_at := now;
       total_steps := Z.of_nat (length task_steps);
       completed_steps := 0;
       current_step_index := 0;
       metadata := or_empty metadata |} in
  _save_plan self plan ;;
  ret plan.

Definition not_found (task_id : string) : exn :=
  ValueError ("Task " +:+ task_id +:+ " not found").

(** The [if / elif / elif] of [update_step]: the step after the branch and
    the plan's counter after it. *)
Definition apply_status (now status : string) (error : option string)
    (step : TaskStep) (completed : Z) : TaskStep * Z :=
  if String.eqb status "in_progress" && status_is step "pending"
  then (set_started_at (Some now) step, completed)
  else if String.eqb status "completed"
  then (set_completed_at (Some now) step, completed + 1)
  else if String.eqb status "failed"
  then (set_error error (set_completed_at (Some now) step), completed)
  else (step, completed).

Definition update_step (self : ProgressTracker) (now : string)
    (task_id : string) (step_index : Z) (status : string)
    (output : option dict) (error : option string) : M TaskPlan :=
  do loaded <- load_plan self task_id;
  match loaded with
  | None => raise (not_found task_id)
  | Some plan =>
      do located <- lift (list_locate (steps plan) step_index);
      let '(slot, step) := located in
      let '(step, completed) :=
        apply_status now status error step (completed_steps plan) in
      let plan := set_completed_steps completed plan in
      let step := set_status status step in
      let step := if opt_dict_truthy output then set_output output step else step in
      (* [step] is the object held by [plan.steps]: the list sees the writes *)
      let plan := set_steps (<[slot := step]> (steps plan)) plan in
      let plan := set_updated_at now plan in
      let plan :=
        if String.eqb status "in_progress"
        then set_current_step_index step_index plan else plan in
      _save_plan self plan ;;
      ret plan
  end.

(** The [for] loop of [get_next_step]. *)
Fixpoint first_pending (l : list TaskStep) : option TaskStep :=
  match l with
  | [] => None
  | step :: rest =>
      if status_is step "pending" then Some step
      else first_pending rest
  end.

Definition get_next_step (self : ProgressTracker) (task_id : string)
  : M (option TaskStep) :=
  do loaded <- load_plan self task_id;
  match loaded with
  | None => ret None
  | Some plan => ret (first_pending (steps plan))
  end.

(** [plan.steps[i].description if i < len(plan.steps) else "Complete"] *)
Definition current_step_text (plan : TaskPlan) : result string :=
  if current_step_index plan <? Z.of_nat (length (steps plan))
  then
    match list_getitem (steps plan) (current_step_index plan) with
    | Ok step => Ok (description step)
    | Raise e => Raise e
    end
  else Ok "Complete".

(** One entry of the summary's ["steps"] list. *)
Definition step_entry (step : TaskStep) : JSON :=
  JDict (list_to_map
    [ ("description", JStr (description step));
      ("status", JStr (status step)) ]).

(** The dict display of [get_progress_summary] evaluates its values in
    order: the division comes before the [current_step] lookup. *)
Definition get_progress_summary (self : ProgressTracker) (task_id : string)
  : M dict :=
  do loaded <- load_plan self task_id;
  match loaded with
  | None => ret (list_to_map [ ("error", JStr "Task not found") ])
  | Some plan =>
      let progress :=
        pretty (completed_steps plan) +:+ "/" +:+ pretty (total_steps plan) in
      do ratio <- lift (PyFloat.int_truediv (completed_steps plan) (total_steps plan));
      let percentage := PyFloat.round (PyFloat.mul_int ratio 100) 1 in
      do current_step <- lift (current_step_text plan);
      let overall :=
        if completed_steps plan =? total_steps plan
        then "complete" else "in_progress" in
      ret (list_to_map
        [ ("task_id", JStr task_id);
          ("title", JStr (title plan));
          ("progress", JStr progress);
          ("percentage", JFloat percentage);
          ("current_step", JStr current_step);
          ("status", JStr overall);
          ("steps", JList (map step_entry (steps plan))) ])
  end.

(** The value stored under [metadata['last_checkpoint']]. *)
Definition checkpoint_entry (now : string) (checkpoint_data : dict) : JSON :=
  JDict (list_to_map
    [ ("timestamp", JStr now); ("data", JDict checkpoint_data) ]).

Definition checkpoint (self : ProgressTracker) (now : string)
    (task_id : string) (checkpoint_data : dict) : M unit :=
  do loaded <- load_plan self task_id;
  match loaded with
  | None => raise (not_found task_id)
  | Some plan =>
      let plan :=
        set_metadata
          (<["last_checkpoint" := checkpoint_entry now checkpoint_data]>
             (metadata plan)) plan in
      _save_plan self plan
  end.

(** [plan.metadata.get('last_checkpoint', {}).get('data')]; Python's [None]
    is [JNull], and [.get] on a value that is not a dict raises. *)
Definition restore_checkpoint (self : ProgressTracker) (task_id : string)
  : M JSON :=
  do loaded <- load_plan self task_id;
  match loaded with
  | None => ret JNull
  | Some plan =>
      match default (JDict ∅) (metadata plan !! "last_checkpoint") with
      | JDict d => ret (default JNull (d !! "data"))
      | _ => raise AttributeError
      end
  end.

(** ** Histories of mutating calls *)

Inductive call : Type :=
| CreatePlan (now task_id title : string) (steps : list string)
    (metadata : option dict)
| UpdateStep (now task_id : string) (step_index : Z) (status : string)
    (output : option dict) (error : option string)
| Checkpoint (now task_id : string) (checkpoint_data : dict).

(** The storage after a call, whether it returned or raised. *)
Definition run_call (self : ProgressTracker) (c : call) (fs : FS) : FS :=
  match c with
  | CreatePlan now task_id title steps metadata =>
      snd (create_plan self now task_id title steps metadata fs)
  | UpdateStep now task_id step_index status output error =>
      snd (update_step self now task_id step_index status output error fs)
  | Checkpoint now task_id checkpoint_data =>
      snd (checkpoint self now task_id checkpoint_data fs)
  end.

Definition run_calls (self : ProgressTracker) (cs : list call) (fs : FS) : FS :=
  foldl (fun fs c => run_call self c fs) fs cs.

(** The calls [update_step(tid, i, "in_progress", ..)], at any time and
    with any output and error. *)
Definition in_progress_again (tid : string) (i : Z) (c : call) : Prop :=
  exists now out err, c = UpdateStep now tid i "in_progress" out err.

(** Storage that a tracker has built from an empty directory. *)
Inductive reachable (self : ProgressTracker) : FS -> Prop :=
| reachable_empty : reachable self ∅
| reachable_call (c : call) (fs : FS) :
    reachable self fs -> reachable self (run_call self c fs).

(** A call that follows the life cycle of a step on the storage [fs]: an
    [update_step] does not address a step that is already ["completed"]. *)
Definition respects_completed (self : ProgressTracker) (c : call) (fs : FS)
  : Prop :=
  match c with
  | UpdateStep _ tid i _ _ _ =>
      forall plan slot step,
        fs !! plan_file self tid = Some plan ->
        norm_index (length (steps plan)) i = Some slot ->
        steps plan !! slot = Some step ->
        status step <> "completed"
  | _ => True
  end.

(** Storage built by calls that all follow that rule. *)
Inductive disciplined (self : ProgressTracker) : FS -> Prop :=
| disciplined_empty : disciplined self ∅
| disciplined_call (c : call) (fs : FS) :
    disciplined self fs -> respects_completed self c fs ->
    disciplined self (run_call self c fs).

(** The number of steps whose status is ["completed"]. *)
Definition count_completed (l : list TaskStep) : Z :=
  Z.of_nat (length (filter (fun step => status_is step "completed" = true) l)).

(** What every plan file written by the tracker satisfies: it lies where its
    own [task_id] says, its [total_steps] is the length of its list of
    steps, and its [current_step_index] is 0 or an index [update_step]
    accepted. *)
Definition plan_ok (self : ProgressTracker) (path : string) (plan : TaskPlan)
  : Prop :=
  path = plan_file self (task_id plan) /\
  total_steps plan = Z.of_nat (length (steps plan)) /\
  - Z.of_nat (length (steps plan)) <= current_step_index plan.

Definition store_ok (self : ProgressTracker) (fs : FS) : Prop :=
  forall path plan, fs !! path = Some plan -> plan_ok self path plan.

(** ** The plan [update_step] writes, in closed form *)

(** The step object after the body of [update_step]. *)
Definition step_after (now status : string) (output : option dict)
    (error : option string) (step : TaskStep) : TaskStep :=
  let step1 := set_status status (fst (apply_status now status error step 0)) in
  if opt_dict_truthy output then set_output output step1 else step1.

(** The counter after the body of [update_step]. *)
Definition count_after (status : string) (step : TaskStep) (completed : Z) : Z :=
  if String.eqb status "in_progress" && status_is step "pending" then completed
  else if String.eqb status "completed" then completed + 1
  else completed.

(** The plan [update_step] saves and returns when [step] is the object at
    position [slot] of the loaded [plan]. *)
Definition plan_after (now : string) (step_index : Z) (status : string)
    (output : option dict) (error : option string)
    (plan : TaskPlan) (slot : nat) (step : TaskStep) : TaskPlan :=
  {| task_id := task_id plan;
     title := title plan;
     steps := <[slot := step_after now status output error step]> (steps plan);
     created_at := created_at plan;
     updated_at := now;
     total_steps := total_steps plan;
     completed_steps := count_after status step (completed_steps plan);
     current_step_index :=
       if String.eqb status "in_progress" then step_index
       else current_step_index plan;
     metadata := metadata plan |}.

(** The dict [get_progress_summary] builds for a stored plan. *)
Definition summary_of (tid : string) (plan : TaskPlan) (q : spec_float)
    (text : string) : dict :=
  list_to_map
    [ ("task_id", JStr tid);
      ("title", JStr (title plan));
      ("progress",
       JStr (pretty (completed_steps plan) +:+ "/" +:+ pretty (total_steps plan)));
      ("percentage", JFloat (PyFloat.round (PyFloat.mul_int q 100) 1));
      ("current_step", JStr text);
      ("status",
       JStr (if completed_steps plan =? total_steps plan
             then "complete" else "in_progress"));
      ("steps", JList (map step_entry (steps plan))) ].

(** The plan [checkpoint] saves. *)
Definition plan_checkpointed (now : string) (checkpoint_data : dict)
    (plan : TaskPlan) : TaskPlan :=
  set_metadata
    (<["last_checkpoint" := checkpoint_entry now checkpoint_data]> (metadata plan))
    plan.

(** ** The module-level functions *)

(** The dict [resume_task] returns, one field per key. *)
Record Resumed : Type := mkResumed {
  resumed_plan : TaskPlan;
  resumed_next_step : option TaskStep;
  resumed_checkpoint_data : JSON;
  resumed_summary : dict
}.

(** [resume_task(task_id)]; [tracker] is the object its [ProgressTracker()]
    builds, whose directory the environment decides. *)
Definition resume_task (tracker : ProgressTracker) (task_id : string)
  : M (option Resumed) :=
  do loaded <- load_plan tracker task_id;
  match loaded with
  | None => ret None
  | Some plan =>
      do next_step <- get_next_step tracker task_id;
      do checkpoint_data <- restore_checkpoint tracker task_id;
      do summary <- get_progress_summary tracker task_id;
      ret (Some {| resumed_plan := plan;
                   resumed_next_step := next_step;
                   resumed_checkpoint_data := checkpoint_data;
                   resumed_summary := summary |})
  end.

(** [start_migration_task()], with the tracker its [ProgressTracker()]
    builds. *)
Definition start_migration_task (tracker : ProgressTracker) (now : string)
  : M TaskPlan :=
  create_plan tracker now "fastapi_migration_phase2"
    "FastAPI Migration Phase 2 - VLAN Endpoints"
    [ "Analyze existing Flask VLAN routes";
      "Create Pydantic schemas for VLAN operations";
      "Implement FastAPI VLAN list endpoint";
      "Implement FastAPI VLAN create endpoint";
      "Implement FastAPI VLAN update endpoint";
      "Implement FastAPI VLAN delete endpoint";
      "Add async database operations";
      "Write unit tests for VLAN endpoints";
      "Integration testing";
      "Update API documentation" ]
    (Some (list_to_map
       [ ("project", JStr "network-device-mcp-server");
         ("phase", JInt 2);
         ("priority", JStr "high") ])).

(** ** More closed forms and invariants *)

(** The plan [create_plan] saves and returns. *)
Definition plan_created (now tid ttl : string) (descs : list string)
    (meta : option dict) : TaskPlan :=
  {| task_id := tid;
     title := ttl;
     steps := imap (new_step tid) descs;
     created_at := now;
     updated_at := now;
     total_steps := Z.of_nat (length (imap (new_step tid) descs));
     completed_steps := 0;
     current_step_index := 0;
     metadata := or_empty meta |}.

(** The task a mutating call addresses. *)
Definition call_task (c : call) : string :=
  match c with
  | CreatePlan _ tid _ _ _ => tid
  | UpdateStep _ tid _ _ _ _ => tid
  | Checkpoint _ tid _ => tid
  end.

(** What the tracker keeps true of every plan it writes, besides
    [plan_ok]: step ids follow the positions, the counter is not negative,
    and [current_step_index] stays below the number of steps of a plan that
    has steps. *)
Definition plan_sound (plan : TaskPlan) : Prop :=
  (forall i step, steps plan !! i = Some step ->
     id step = task_id plan +:+ "_step_" +:+ pretty i) /\
  0 <= completed_steps plan /\
  (steps plan <> [] ->
   current_step_index plan < Z.of_nat (length (steps plan))).


(** ** The tracker over Python payloads and files that can fail

    The embedding above types every payload as a JSON document and lets
    every write succeed.  This second embedding of the same methods keeps
    what [json.dump], [json.load] and [open] do in view: a payload is a
    Python value, which [json.dump] may refuse or change (a tuple is
    written as an array), a file is a whole document or the partial text a
    failed write leaves behind, and [open(.., 'w')] may refuse a path. *)

Abbreviation StepDoc := TaskStep.
Abbreviation PlanDoc := TaskPlan.

Module Wire.

(** The values a payload typed [Dict[str, Any]] is built from.  [PObject]
    stands for a value that [asdict] copies and [json.dump] raises
    [TypeError] on, such as a set or a bytes object; [POther] for any other
    value [json.dump] accepts, with the document it writes for it: a dict
    with an int key, which is written as a string, or an [IntEnum] member,
    written as its number. *)
Inductive PyVal : Type :=
| PNone
| PBool (b : bool)
| PInt (z : Z)
| PFloat (f : spec_float)
| PStr (s : string)
| PList (l : list PyVal)
| PTuple (l : list PyVal)
| PDict (d : gmap string PyVal)
| PObject (repr : string)
| POther (repr : string) (written : JSON).

Abbreviation pydict := (gmap string PyVal).

(** [sys.get_int_max_str_digits()]: an int with more decimal digits is
    neither written by [json.dump] nor read by [json.load]. *)
Definition int_max_str_digits : Z := 4300.

(** [len(str(abs(z))) <= 4300]; the first test only spares the evaluation
    of the power for the ints of every day. *)
Definition int_writable (z : Z) : bool :=
  if Z.abs z <? 2 ^ 64 then true
  else Z.abs z <? 10 ^ int_max_str_digits.

(** Whether [json.load] accepts the document. *)
Fixpoint loadable (j : JSON) : bool :=
  match j with
  | JInt z => int_writable z
  | JList l => forallb loadable l
  | JDict d => map_fold (fun _ j acc => loadable j && acc) true d
  | _ => true
  end.

(** Whether [json.dump] accepts the value. *)
Fixpoint dumpable (v : PyVal) : bool :=
  match v with
  | PNone | PBool _ | PFloat _ | PStr _ => true
  | PInt z => int_writable z
  | PList l | PTuple l => forallb dumpable l
  | PDict d => map_fold (fun _ v acc => dumpable v && acc) true d
  | PObject _ => false
  | POther _ written => loadable written
  end.

(** The document [json.dump] writes for a value it accepts: lists and
    tuples both become arrays.  Nothing is written for a [PObject]. *)
Fixpoint to_json (v : PyVal) : JSON :=
  match v with
  | PNone => JNull
  | PBool b => JBool b
  | PInt z => JInt z
  | PFloat f => JFloat f
  | PStr s => JStr s
  | PList l | PTuple l => JList (map to_json l)
  | PDict d => JDict (to_json <$> d)
  | PObject _ => JNull
  | POther _ written => written
  end.

(** The value [json.load] builds from a document: arrays become lists. *)
Fixpoint of_json (j : JSON) : PyVal :=
  match j with
  | JNull => PNone
  | JBool b => PBool b
  | JInt z => PInt z
  | JFloat f => PFloat f
  | JStr s => PStr s
  | JList l => PList (map of_json l)
  | JDict d => PDict (of_json <$> d)
  end.

(** The values JSON carries unchanged: no tuple, nothing of the two other
    kinds, and no NaN, which is not equal to itself. *)
Fixpoint clean (v : PyVal) : bool :=
  match v with
  | PNone | PBool _ | PInt _ | PStr _ => true
  | PFloat f => match f with S754_nan => false | _ => true end
  | PList l => forallb clean l
  | PTuple _ => false
  | PDict d => map_fold (fun _ v acc => clean v && acc) true d
  | PObject _ | POther _ _ => false
  end.

(** The number of nodes of a value and of a document, to reason by
    induction through the lists and dicts they nest. *)
Fixpoint val_size (v : PyVal) : nat :=
  match v with
  | PList l | PTuple l => S (foldr (fun v acc => (val_size v + acc)%nat) O l)
  | PDict d => S (map_fold (fun _ v acc => (val_size v + acc)%nat) O d)
  | _ => 1%nat
  end.

Fixpoint json_size (j : JSON) : nat :=
  match j with
  | JList l => S (foldr (fun j acc => (json_size j + acc)%nat) O l)
  | JDict d => S (map_fold (fun _ j acc => (json_size j + acc)%nat) O d)
  | _ => 1%nat
  end.

(** [bool(d)] and [bool(o)] for payload dicts. *)
Definition dict_truthy (d : pydict) : bool := negb (Nat.eqb (size d) 0).

Definition opt_dict_truthy (o : option pydict) : bool :=
  match o with
  | None => false
  | Some d => dict_truthy d
  end.

Definition or_empty (o : option pydict) : pydict :=
  match o with
  | Some d => if dict_truthy d then d else ∅
  | None => ∅
  end.

(** *** The dataclasses, with Python payloads *)

Record TaskStep : Type := Step {
  id : string;
  description : string;
  status : string;
  started_at : option string;
  completed_at : option string;
  error : option string;
  output : option pydict
}.

Record TaskPlan : Type := Plan {
  task_id : string;
  title : string;
  steps : list TaskStep;
  created_at : string;
  updated_at : string;
  total_steps : Z;
  completed_steps : Z;
  current_step_index : Z;
  metadata : pydict
}.

Definition set_started_at (v : option string) (s : TaskStep) : TaskStep :=
  Step (id s) (description s) (status s) v (completed_at s) (error s) (output s).
Definition set_completed_at (v : option string) (s : TaskStep) : TaskStep :=
  Step (id s) (description s) (status s) (started_at s) v (error s) (output s).
Definition set_error (v : option string) (s : TaskStep) : TaskStep :=
  Step (id s) (description s) (status s) (started_at s) (completed_at s) v (output s).
Definition set_status (v : string) (s : TaskStep) : TaskStep :=
  Step (id s) (description s) v (started_at s) (completed_at s) (error s) (output s).
Definition set_output (v : option pydict) (s : TaskStep) : TaskStep :=
  Step (id s) (description s) (status s) (started_at s) (completed_at s) (error s) v.

Definition set_steps (v : list TaskStep) (p : TaskPlan) : TaskPlan :=
  Plan (task_id p) (title p) v (created_at p) (updated_at p) (total_steps p)
    (completed_steps p) (current_step_index p) (metadata p).
Definition set_updated_at (v : string) (p : TaskPlan) : TaskPlan :=
  Plan (task_id p) (title p) (steps p) (created_at p) v (total_steps p)
    (completed_steps p) (current_step_index p) (metadata p).
Definition set_completed_steps (v : Z) (p : TaskPlan) : TaskPlan :=
  Plan (task_id p) (title p) (steps p) (created_at p) (updated_at p)
    (total_steps p) v (current_step_index p) (metadata p).
Definition set_current_step_index (v : Z) (p : TaskPlan) : TaskPlan :=
  Plan (task_id p) (title p) (steps p) (created_at p) (updated_at p)
    (total_steps p) (completed_steps p) v (metadata p).
Definition set_metadata (v : pydict) (p : TaskPlan) : TaskPlan :=
  Plan (task_id p) (title p) (steps p) (created_at p) (updated_at p)
    (total_steps p) (completed_steps p) (current_step_index p) v.

Definition status_is (step : TaskStep) (s : string) : bool :=
  String.eqb (status step) s.

Definition dict_to_json (d : pydict) : dict := to_json <$> d.
Definition dict_of_json (d : dict) : pydict := of_json <$> d.

(** [asdict] followed by [json.dump]: the document of a step and of a
    plan, when every payload is accepted. *)
Definition step_to_doc (s : TaskStep) : StepDoc :=
  mkTaskStep (id s) (description s) (status s) (started_at s) (completed_at s)
    (error s) (dict_to_json <$> output s).

Definition plan_to_doc (p : TaskPlan) : PlanDoc :=
  mkTaskPlan (task_id p) (title p) (map step_to_doc (steps p)) (created_at p)
    (updated_at p) (total_steps p) (completed_steps p) (current_step_index p)
    (dict_to_json (metadata p)).

Definition step_dumpable (s : TaskStep) : bool :=
  match output s with
  | Some d => dumpable (PDict d)
  | None => true
  end.

Definition plan_dumpable (p : TaskPlan) : bool :=
  forallb step_dumpable (steps p) && dumpable (PDict (metadata p)).

(** [json.load] followed by the two dataclass constructors. *)
Definition step_of_doc (d : StepDoc) : TaskStep :=
  match d with
  | mkTaskStep i de st sa ca er out =>
      Step i de st sa ca er (dict_of_json <$> out)
  end.

Definition plan_of_doc (d : PlanDoc) : TaskPlan :=
  match d with
  | mkTaskPlan tid ttl sts cr up tot co cur meta =>
      Plan tid ttl (map step_of_doc sts) cr up tot co cur (dict_of_json meta)
  end.

Definition step_loadable (d : StepDoc) : bool :=
  match d with
  | mkTaskStep _ _ _ _ _ _ (Some out) => loadable (JDict out)
  | _ => true
  end.

Definition doc_loadable (d : PlanDoc) : bool :=
  match d with
  | mkTaskPlan _ _ sts _ _ _ _ _ meta =>
      forallb step_loadable sts && loadable (JDict meta)
  end.

(** *** Files and failures *)

(** A plan file holds a whole document, or what is left when the write
    failed after [open(.., 'w')] had emptied the file: text that is not a
    JSON document. *)
Inductive File : Type :=
| Document (d : PlanDoc)
| Partial.

Abbreviation Disk := (gmap string File).

(** How a method fails: with an exception of the tracker's own code, with
    the [TypeError] or [ValueError] of a [json.dump] that refuses a
    payload, with the [JSONDecodeError] (or other [ValueError]) of a
    [json.load] that cannot read the file, with the [OSError] (or, for a
    name with a null byte, [ValueError]) of an [open] that refuses the
    path, or with the [OSError] of a file system that refuses the text, as
    a full disk does. *)
Inductive failure : Type :=
| Tracker (e : exn)
| EncodeError
| DecodeError
| OpenError
| WriteError.

Inductive outcome (A : Type) : Type :=
| Returns (a : A)
| Raises (f : failure).
Arguments Returns {A} a.
Arguments Raises {A} f.

Definition W (A : Type) : Type := Disk -> outcome A * Disk.

Definition new_step (task_id : string) (i : nat) (desc : string) : TaskStep :=
  {| id := task_id +:+ "_step_" +:+ pretty i;
     description := desc;
     status := "pending";
     started_at := None;
     completed_at := None;
     error := None;
     output := None |}.

Definition apply_status (now st : string) (err : option string)
    (step : TaskStep) (completed : Z) : TaskStep * Z :=
  if String.eqb st "in_progress" && status_is step "pending"
  then (set_started_at (Some now) step, completed)
  else if String.eqb st "completed"
  then (set_completed_at (Some now) step, completed + 1)
  else if String.eqb st "failed"
  then (set_error err (set_completed_at (Some now) step), completed)
  else (step, completed).

Section Methods.

(** Which paths [open(path, 'w')] accepts: the directory exists, the name
    is legal and not too long, the process may write there; and which
    documents the file system then takes in full. *)
Context (can_open : string -> bool) (can_write : string -> PlanDoc -> bool).

(** [_save_plan]: [open] first, which empties the file, then [json.dump]. *)
Definition _save_plan (self : ProgressTracker) (plan : TaskPlan) : W unit :=
  fun disk =>
    let path := plan_file self (task_id plan) in
    if can_open path then
      if plan_dumpable plan then
        if can_write path (plan_to_doc plan)
        then (Returns tt, <[path := Document (plan_to_doc plan)]> disk)
        else (Raises WriteError, <[path := Partial]> disk)
      else (Raises EncodeError, <[path := Partial]> disk)
    else (Raises OpenError, disk).

Definition load_plan (self : ProgressTracker) (task_id : string)
  : W (option TaskPlan) :=
  fun disk =>
    match disk !! plan_file self task_id with
    | None => (Returns None, disk)
    | Some Partial => (Raises DecodeError, disk)
    | Some (Document d) =>
        if doc_loadable d then (Returns (Some (plan_of_doc d)), disk)
        else (Raises DecodeError, disk)
    end.

Definition create_plan (self : ProgressTracker) (now : string)
    (task_id title : string) (steps : list string) (metadata : option pydict)
  : W TaskPlan :=
  fun disk =>
    let task_steps := imap (new_step task_id) steps in
    let plan :=
      {| task_id := task_id;
         title := title;
         steps := task_steps;
         created_at := now;
         updated_at := now;
         total_steps := Z.of_nat (length task_steps);
         completed_steps := 0;
         current_step_index := 0;
         metadata := or_empty metadata |} in
    match _save_plan self plan disk with
    | (Returns _, disk') => (Returns plan, disk')
    | (Raises f, disk') => (Raises f, disk')
    end.

Definition update_step (self : ProgressTracker) (now : string)
    (task_id : string) (step_index : Z) (st : string)
    (out : option pydict) (err : option string) : W TaskPlan :=
  fun disk =>
    match load_plan self task_id disk with
    | (Raises f, disk') => (Raises f, disk')
    | (Returns None, disk') => (Raises (Tracker (not_found task_id)), disk')
    | (Returns (Some plan), disk') =>
        match list_locate (steps plan) step_index with
        | Raise e => (Raises (Tracker e), disk')
        | Ok (slot, step) =>
            let '(step, completed) :=
              apply_status now st err step (completed_steps plan) in
            let plan := set_completed_steps completed plan in
            let step := set_status st step in
            let step := if opt_dict_truthy out then set_output out step else step in
            let plan := set_steps (<[slot := step]> (steps plan)) plan in
            let plan := set_updated_at now plan in
            let plan :=
              if String.eqb st "in_progress"
              then set_current_step_index step_index plan else plan in
            match _save_plan self plan disk' with
            | (Returns _, disk'') => (Returns plan, disk'')
            | (Raises f, disk'') => (Raises f, disk'')
            end
        end
    end.

(** The value stored under [metadata['last_checkpoint']]. *)
Definition checkpoint_entry (now : string) (checkpoint_data : pydict) : PyVal :=
  PDict (<["timestamp" := PStr now]> {[ "data" := PDict checkpoint_data ]}).

Definition checkpoint (self : ProgressTracker) (now : string)
    (task_id : string) (checkpoint_data : pydict) : W unit :=
  fun disk =>
    match load_plan self task_id disk with
    | (Raises f, disk') => (Raises f, disk')
    | (Returns None, disk') => (Raises (Tracker (not_found task_id)), disk')
    | (Returns (Some plan), disk') =>
        let plan :=
          set_metadata
            (<["last_checkpoint" := checkpoint_entry now checkpoint_data]>
               (metadata plan)) plan in
        _save_plan self plan disk'
    end.

(** [plan.metadata.get('last_checkpoint', {}).get('data')]: only a dict
    has [.get]. *)
Definition restore_checkpoint (self : ProgressTracker) (task_id : string)
  : W PyVal :=
  fun disk =>
    match load_plan self task_id disk with
    | (Raises f, disk') => (Raises f, disk')
    | (Returns None, disk') => (Returns PNone, disk')
    | (Returns (Some plan), disk') =>
        match default (PDict ∅) (metadata plan !! "last_checkpoint") with
        | PDict d => (Returns (default PNone (d !! "data")), disk')
        | _ => (Raises (Tracker AttributeError), disk')
        end
    end.

(** The calls that write, run for their effect on the disk by a caller
    that goes on after an exception. *)
Inductive call : Type :=
| CreatePlan (now task_id title : string) (steps : list string)
    (metadata : option pydict)
| UpdateStep (now task_id : string) (step_index : Z) (st : string)
    (out : option pydict) (err : option string)
| Checkpoint (now task_id : string) (checkpoint_data : pydict).

Definition call_task (c : call) : string :=
  match c with
  | CreatePlan _ task_id _ _ _ => task_id
  | UpdateStep _ task_id _ _ _ _ => task_id
  | Checkpoint _ task_id _ => task_id
  end.

(** The payload a call hands over to be written. *)
Definition call_payload (c : call) : pydict :=
  match c with
  | CreatePlan _ _ _ _ metadata => or_empty metadata
  | UpdateStep _ _ _ _ out _ => or_empty out
  | Checkpoint _ _ checkpoint_data => checkpoint_data
  end.

Definition raised {A : Type} (r : outcome A * Disk) : option failure * Disk :=
  match r with
  | (Returns _, disk) => (None, disk)
  | (Raises f, disk) => (Some f, disk)
  end.

Definition run_call (self : ProgressTracker) (c : call) (disk : Disk)
  : option failure * Disk :=
  match c with
  | CreatePlan now task_id title steps metadata =>
      raised (create_plan self now task_id title steps metadata disk)
  | UpdateStep now task_id step_index st out err =>
      raised (update_step self now task_id step_index st out err disk)
  | Checkpoint now task_id checkpoint_data =>
      raised (checkpoint self now task_id checkpoint_data disk)
  end.

Definition run_calls (self : ProgressTracker) (cs : list call) (disk : Disk)
  : Disk :=
  fold_left (fun disk c => snd (run_call self c disk)) cs disk.

End Methods.

(** A task id that names a file in the storage root itself: no ["/"], which
    [pathlib] would read as a directory or collapse, and no null byte.  For
    such ids [plan_file] names the file the code opens, on a file system
    that tells names apart byte by byte. *)
Definition plain (task_id : string) : bool :=
  forallb
    (fun c => negb (Ascii.eqb c "/"%char) && negb (Ascii.eqb c "000"%char))
    (list_ascii_of_string task_id).

(** The document in the file of a task carries that task's id. *)
Definition disk_ok (self : ProgressTracker) (disk : Disk) : Prop :=
  forall tid d, plain tid = true ->
    disk !! plan_file self tid = Some (Document d) ->
    task_id (plan_of_doc d) = tid.

End Wire.

(** ** A running example: the two-step plan of the specification *)

Definition demo : ProgressTracker := mkTracker "/var/lib/progress".

Definition demo_plan : TaskPlan :=
  {| task_id := "t1";
     title := "Demo";
     steps := [ new_step "t1" 0 "step A"; new_step "t1" 1 "step B" ];
     created_at := "2026-01-01T09:00:00";
     updated_at := "2026-01-01T09:00:00";
     total_steps := 2;
     completed_steps := 0;
     current_step_index := 0;
     metadata := ∅ |}.

Definition demo_create : call :=
  CreatePlan "2026-01-01T09:00:00" "t1" "Demo" [ "step A"; "step B" ] None.

(** The storage after [create_plan("t1", "Demo", ["step A", "step B"])]. *)
Definition demo_fs : FS := run_calls demo [ demo_create ] ∅.

(** The same step reported completed twice. *)
Definition completed_twice : list call :=
  [ demo_create;
    UpdateStep "2026-01-01T09:05:00" "t1" 0 "completed" None None;
    UpdateStep "2026-01-01T09:06:00" "t1" 0 "completed" None None ].

(** Step 0 reported in progress, and what that call returns. *)
Definition demo_start : call :=
  UpdateStep "2026-01-01T09:05:00" "t1" 0 "in_progress" None None.

Definition demo_fs_started : FS := run_calls demo [ demo_create; demo_start ] ∅.

Definition demo_plan_started : TaskPlan :=
  plan_after "2026-01-01T09:05:00" 0 "in_progress" None None demo_plan 0
    (new_step "t1" 0 "step A").

(** A plan created with caller metadata, one key of which is the one
    [checkpoint] writes. *)
Definition migration_meta : dict :=
  <["project" := JStr "network-device-mcp-server"]>
    (<["phase" := JInt 2]> {[ "last_checkpoint" := JStr "stale" ]}).



(** Step 0 reported completed with an output: one of two steps done. *)
Definition demo_finish : call :=
  UpdateStep "2026-01-01T09:20:00" "t1" 0 "completed"
    (Some {[ "ok" := JBool true ]}) None.

Definition demo_fs_half : FS :=
  run_calls demo [ demo_create; demo_start; demo_finish ] ∅.

Definition demo_plan_half : TaskPlan :=
  plan_after "2026-01-01T09:20:00" 0 "completed"
    (Some {[ "ok" := JBool true ]}) None demo_plan_started 0
    (step_after "2026-01-01T09:05:00" "in_progress" None None
       (new_step "t1" 0 "step A")).

(** The float [50.0]. *)
Definition fifty : spec_float := S754_finite false 7036874417766400 (-47).

(** A plan created from an empty list of descriptions. *)
Definition empty_plan : TaskPlan :=
  {| task_id := "idle";
     title := "Nothing to do";
     steps := [];
     created_at := "2026-01-03T07:00:00";
     updated_at := "2026-01-03T07:00:00";
     total_steps := 0;
     completed_steps := 0;
     current_step_index := 0;
     metadata := ∅ |}.

Definition empty_fs : FS :=
  run_calls demo
    [ CreatePlan "2026-01-03T07:00:00" "idle" "Nothing to do" [] None ] ∅.

(** Two tasks side by side: the demo plan, half done, and the migration. *)
Definition two_tasks_fs : FS :=
  run_calls demo
    [ demo_create; demo_start; demo_finish;
      CreatePlan "2026-01-02T08:00:00" "fastapi_migration_phase2"
        "FastAPI Migration Phase 2" [ "Analyze existing routes" ]
        (Some migration_meta) ] ∅.

(** The demo plan on a disk where every path can be opened and every
    document written, and payloads for a checkpoint: one JSON carries
    unchanged, one with a tuple, one with a set, one with an int too long
    to write. *)
Definition open_always : string -> bool := fun _ => true.
Definition write_always : string -> PlanDoc -> bool := fun _ _ => true.

Definition spool : ProgressTracker := mkTracker "/p".

Definition spool_plan : Wire.TaskPlan :=
  {| Wire.task_id := "t1";
     Wire.title := "Demo";
     Wire.steps := [ Wire.new_step "t1" 0 "step A"; Wire.new_step "t1" 1 "step B" ];
     Wire.created_at := "09:00";
     Wire.updated_at := "09:00";
     Wire.total_steps := 2;
     Wire.completed_steps := 0;
     Wire.current_step_index := 0;
     Wire.metadata := ∅ |}.

Definition demo_disk : Wire.Disk :=
  Wire.run_calls open_always write_always spool
    [ Wire.CreatePlan "09:00" "t1" "Demo" [ "step A"; "step B" ] None ] ∅.

Definition cursor_payload : Wire.pydict :=
  {[ "cursor" := Wire.PList [ Wire.PInt 7; Wire.PStr "b" ] ]}.

Definition pair_payload : Wire.pydict :=
  {[ "pair" := Wire.PTuple [ Wire.PInt 1; Wire.PInt 2 ] ]}.

Definition set_payload : Wire.pydict :=
  {[ "seen" := Wire.PObject "{1, 2}" ]}.

Definition huge_payload : Wire.pydict :=
  {[ "n" := Wire.PInt (10 ^ 5000) ]}.

(** ** Three sentences of the specification, as they are written *)

(** "After [checkpoint(task_id, X)], a fresh tracker instance pointed at the
    same storage root and calling [restore_checkpoint(task_id)] returns [X]
    unchanged", for a checkpoint that returned. *)
Definition restores_unchanged (can_open : string -> bool)
    (can_write : string -> PlanDoc -> bool)
    (self other : ProgressTracker) (now tid : string) (X : Wire.pydict)
    (disk : Wire.Disk) : Prop :=
  forall disk',
    Wire.checkpoint can_open can_write self now tid X disk
      = (Wire.Returns tt, disk') ->
    Wire.restore_checkpoint other tid disk' = (Wire.Returns (Wire.PDict X), disk').


(** "For every existing plan, [get_progress_summary] returns a percentage
    equal to [completed_steps / total_steps * 100] rounded to one decimal
    place", for the plan stored under [tid]. *)
Definition summary_has_percentage (self : ProgressTracker) (fs : FS)
    (tid : string) : Prop :=
  forall plan, load_plan self tid fs = (Ok (Some plan), fs) ->
    exists (d : dict) (q : spec_float),
      fst (get_progress_summary self tid fs) = Ok d /\
      PyFloat.int_truediv (completed_steps plan) (total_steps plan) = Ok q /\
      d !! "percentage" = Some (JFloat (PyFloat.round (PyFloat.mul_int q 100) 1)).

(** * Properties *)

(** ** Indexing *)

Lemma norm_index_Some (len : nat) (i : Z) (n : nat) :
  norm_index len i = Some n ->
  (n < len)%nat /\ - Z.of_nat len <= i < Z.of_nat len /\
  (0 <= i -> Z.of_nat n = i) /\ (i < 0 -> Z.of_nat n = Z.of_nat len + i).
Proof.
  unfold norm_index.
  destruct (0 <=? i) eqn:H0, (i <? Z.of_nat len) eqn:H1,
    (- Z.of_nat len <=? i) eqn:H2, (i <? 0) eqn:H3; simpl;
    intros [= <-]; lia.
Qed.

Lemma norm_index_None (len : nat) (i : Z) :
  norm_index len i = None <-> ~ (- Z.of_nat len <= i < Z.of_nat len).
Proof.
  unfold norm_index.
  destruct (0 <=? i) eqn:H0, (i <? Z.of_nat len) eqn:H1,
    (- Z.of_nat len <=? i) eqn:H2, (i <? 0) eqn:H3; simpl;
    split; (discriminate || lia || tauto || idtac); intros; exfalso; lia.
Qed.

Lemma norm_index_is_Some (len : nat) (i : Z) :
  - Z.of_nat len <= i < Z.of_nat len -> exists n, norm_index len i = Some n.
Proof.
  intros Hi. destruct (norm_index len i) as [n|] eqn:E; [eauto|].
  apply norm_index_None in E. contradiction.
Qed.

Lemma list_getitem_Ok {A : Type} (l : list A) (i : Z) (x : A) :
  list_getitem l i = Ok x <->
  exists n, norm_index (length l) i = Some n /\ l !! n = Some x.
Proof.
  unfold list_getitem, list_locate. split.
  - destruct (norm_index (length l) i) as [n|]; [|discriminate].
    destruct (l !! n) as [y|] eqn:E; [|discriminate].
    intros [= <-]. eauto.
  - intros (n & -> & ->). reflexivity.
Qed.

Lemma list_getitem_Raise {A : Type} (l : list A) (i : Z) (e : exn) :
  list_getitem l i = Raise e <->
  e = IndexError /\ ~ (- Z.of_nat (length l) <= i < Z.of_nat (length l)).
Proof.
  unfold list_getitem, list_locate.
  destruct (norm_index (length l) i) as [n|] eqn:E.
  - destruct (norm_index_Some _ _ _ E) as (Hn & Hi & _).
    destruct (lookup_lt_is_Some_2 l n Hn) as [x ->].
    split; [discriminate | tauto].
  - apply norm_index_None in E. split.
    + intros [= <-]. auto.
    + intros [-> _]. reflexivity.
Qed.

(** ** What each method does to the storage *)

Section Methods.

Context (self : ProgressTracker).

Lemma load_plan_run (task_id : string) (fs : FS) :
  load_plan self task_id fs = (Ok (fs !! plan_file self task_id), fs).
Proof. reflexivity. Qed.

Lemma create_plan_run (now tid ttl : string) (descs : list string)
    (meta : option dict) (fs : FS) :
  exists plan,
    create_plan self now tid ttl descs meta fs
      = (Ok plan, <[plan_file self tid := plan]> fs) /\
    task_id plan = tid /\
    title plan = ttl /\
    steps plan = imap (new_step tid) descs /\
    total_steps plan = Z.of_nat (length descs) /\
    completed_steps plan = 0 /\
    current_step_index plan = 0 /\
    created_at plan = now /\ updated_at plan = now.
Proof.
  eexists. split; [reflexivity|]. simpl.
  rewrite length_imap. repeat split.
Qed.

Lemma apply_status_eq (now st : string) (err : option string)
    (step : TaskStep) (c : Z) :
  apply_status now st err step c
    = (fst (apply_status now st err step 0), count_after st step c).
Proof.
  unfold apply_status, count_after.
  destruct (String.eqb st "in_progress" && status_is step "pending");
    [reflexivity|].
  destruct (String.eqb st "completed"); [reflexivity|].
  destruct (String.eqb st "failed"); reflexivity.
Qed.

Lemma update_step_run (now tid : string) (i : Z) (st : string)
    (out : option dict) (err : option string) (fs : FS)
    (plan : TaskPlan) (slot : nat) (step : TaskStep) :
  fs !! plan_file self tid = Some plan ->
  norm_index (length (steps plan)) i = Some slot ->
  steps plan !! slot = Some step ->
  update_step self now tid i st out err fs
    = (Ok (plan_after now i st out err plan slot step),
       <[plan_file self (task_id plan)
           := plan_after now i st out err plan slot step]> fs).
Proof.
  intros Hfs Hslot Hstep.
  unfold update_step, bind, load_plan, read_file, lift, list_locate.
  rewrite Hfs, Hslot, Hstep. rewrite apply_status_eq.
  unfold plan_after, step_after, _save_plan, write_file, ret; simpl.
  destruct (opt_dict_truthy out), (String.eqb st "in_progress"); reflexivity.
Qed.

Lemma update_step_not_found (now tid : string) (i : Z) (st : string)
    (out : option dict) (err : option string) (fs : FS) :
  fs !! plan_file self tid = None ->
  update_step self now tid i st out err fs = (Raise (not_found tid), fs).
Proof.
  intros Hfs. unfold update_step, bind, load_plan, read_file.
  rewrite Hfs. reflexivity.
Qed.

Lemma update_step_index_error (now tid : string) (i : Z) (st : string)
    (out : option dict) (err : option string) (fs : FS) (plan : TaskPlan) :
  fs !! plan_file self tid = Some plan ->
  norm_index (length (steps plan)) i = None ->
  update_step self now tid i st out err fs = (Raise IndexError, fs).
Proof.
  intros Hfs Hslot.
  unfold update_step, bind, load_plan, read_file, lift, list_locate.
  rewrite Hfs, Hslot. reflexivity.
Qed.

Lemma checkpoint_run (now tid : string) (data : dict) (fs : FS)
    (plan : TaskPlan) :
  fs !! plan_file self tid = Some plan ->
  checkpoint self now tid data fs
    = (Ok tt,
       <[plan_file self (task_id plan) := plan_checkpointed now data plan]> fs).
Proof.
  intros Hfs. unfold checkpoint, bind, load_plan, read_file.
  rewrite Hfs. reflexivity.
Qed.

Lemma checkpoint_not_found (now tid : string) (data : dict) (fs : FS) :
  fs !! plan_file self tid = None ->
  checkpoint self now tid data fs = (Raise (not_found tid), fs).
Proof.
  intros Hfs. unfold checkpoint, bind, load_plan, read_file.
  rewrite Hfs. reflexivity.
Qed.

(** *** The invariant of the storage *)

Lemma store_ok_empty : store_ok self ∅.
Proof. intros path plan H. rewrite lookup_empty in H. discriminate. Qed.

Lemma store_ok_insert (fs : FS) (plan : TaskPlan) :
  store_ok self fs ->
  total_steps plan = Z.of_nat (length (steps plan)) ->
  - Z.of_nat (length (steps plan)) <= current_step_index plan ->
  store_ok self (<[plan_file self (task_id plan) := plan]> fs).
Proof.
  intros Hok Htot Hcur path p Hp.
  destruct (decide (plan_file self (task_id plan) = path)) as [<-|Hne].
  - rewrite lookup_insert_eq in Hp. injection Hp as <-.
    repeat split; assumption.
  - rewrite lookup_insert_ne in Hp by assumption. eauto.
Qed.

Lemma store_ok_run_call (c : call) (fs : FS) :
  store_ok self fs -> store_ok self (run_call self c fs).
Proof.
  intros Hok.
  destruct c as [now tid ttl descs meta|now tid i st out err|now tid data];
    unfold run_call.
  - destruct (create_plan_run now tid ttl descs meta fs)
      as (plan & -> & Hid & _ & Hsteps & Htot & _ & Hcur & _); simpl.
    rewrite <- Hid. apply store_ok_insert; [assumption| |].
    + rewrite Htot, Hsteps, length_imap. reflexivity.
    + rewrite Hcur. lia.
  - destruct (fs !! plan_file self tid) as [plan|] eqn:Hfs;
      [|rewrite update_step_not_found by assumption; assumption].
    destruct (Hok _ _ Hfs) as (Hpath & Htot & Hcur).
    destruct (norm_index (length (steps plan)) i) as [slot|] eqn:Hslot;
      [|erewrite update_step_index_error by eassumption; assumption].
    destruct (norm_index_Some _ _ _ Hslot) as (Hlt & Hi & _).
    destruct (lookup_lt_is_Some_2 _ _ Hlt) as [step Hstep].
    erewrite update_step_run by eassumption. simpl.
    change (task_id plan)
      with (task_id (plan_after now i st out err plan slot step)) at 1.
    apply store_ok_insert; [assumption| |]; simpl;
      rewrite length_insert; [assumption|].
    destruct (String.eqb st "in_progress"); lia.
  - destruct (fs !! plan_file self tid) as [plan|] eqn:Hfs;
      [|rewrite checkpoint_not_found by assumption; assumption].
    destruct (Hok _ _ Hfs) as (Hpath & Htot & Hcur).
    erewrite checkpoint_run by eassumption. simpl.
    change (task_id plan)
      with (task_id (plan_checkpointed now data plan)) at 1.
    apply store_ok_insert; assumption.
Qed.

Lemma reachable_store_ok (fs : FS) : reachable self fs -> store_ok self fs.
Proof.
  induction 1 as [|c fs _ IH]; [apply store_ok_empty|].
  apply store_ok_run_call, IH.
Qed.

Lemma reachable_run_calls (cs : list call) (fs : FS) :
  reachable self fs -> reachable self (run_calls self cs fs).
Proof.
  revert fs. induction cs as [|c cs IH]; intros fs Hfs; [exact Hfs|].
  simpl. apply IH. constructor. exact Hfs.
Qed.

(** A plan found under [tid] is written back to the file it was read from. *)
Lemma store_ok_same_file (fs : FS) (tid : string) (plan : TaskPlan) :
  store_ok self fs ->
  fs !! plan_file self tid = Some plan ->
  plan_file self (task_id plan) = plan_file self tid.
Proof. intros Hok Hfs. symmetry. apply (Hok _ _ Hfs). Qed.

End Methods.

(** ** Reading back what was written *)

Lemma load_plan_Some (self : ProgressTracker) (tid : string) (fs : FS)
    (plan : TaskPlan) :
  load_plan self tid fs = (Ok (Some plan), fs) <->
  fs !! plan_file self tid = Some plan.
Proof.
  rewrite load_plan_run. split; [intros [= ->]|intros ->]; reflexivity.
Qed.

Lemma load_plan_None (self : ProgressTracker) (tid : string) (fs : FS) :
  load_plan self tid fs = (Ok None, fs) <-> fs !! plan_file self tid = None.
Proof.
  rewrite load_plan_run. split; [intros [= ->]|intros ->]; reflexivity.
Qed.

(** After a write under a reachable storage, the plan read back under the
    same [task_id] is the plan written. *)
Lemma load_after_save (self : ProgressTracker) (tid : string) (fs : FS)
    (plan plan' : TaskPlan) :
  store_ok self fs ->
  fs !! plan_file self tid = Some plan ->
  load_plan self tid (<[plan_file self (task_id plan) := plan']> fs)
    = (Ok (Some plan'), <[plan_file self (task_id plan) := plan']> fs).
Proof.
  intros Hok Hfs. rewrite load_plan_run.
  rewrite (store_ok_same_file self fs tid plan Hok Hfs).
  rewrite lookup_insert_eq. reflexivity.
Qed.

(** The half of the counting invariant that holds on every reachable
    storage: [total_steps] is the length of the list of steps. *)
Lemma reachable_total_steps (self : ProgressTracker) (tid : string) (fs : FS)
    (plan : TaskPlan) :
  reachable self fs ->
  load_plan self tid fs = (Ok (Some plan), fs) ->
  total_steps plan = Z.of_nat (length (steps plan)).
Proof.
  intros Hr Hload. apply load_plan_Some in Hload.
  apply (reachable_store_ok self fs Hr _ _ Hload).
Qed.

(** ** Counting completed steps *)

Lemma count_completed_cons (step : TaskStep) (l : list TaskStep) :
  count_completed (step :: l)
    = (if status_is step "completed" then 1 else 0) + count_completed l.
Proof.
  unfold count_completed. rewrite filter_cons.
  destruct (decide (status_is step "completed" = true)) as [->|Hne].
  - simpl length. lia.
  - destruct (status_is step "completed"); [congruence|]. lia.
Qed.

Lemma count_completed_insert (l : list TaskStep) (n : nat)
    (old new : TaskStep) :
  l !! n = Some old ->
  count_completed (<[n := new]> l)
    = count_completed l
      - (if status_is old "completed" then 1 else 0)
      + (if status_is new "completed" then 1 else 0).
Proof.
  revert n. induction l as [|x l IH]; intros [|n] Hn; try discriminate.
  - injection Hn as ->. simpl. rewrite !count_completed_cons. lia.
  - simpl in *. rewrite !count_completed_cons, (IH n Hn). lia.
Qed.

Lemma status_after (now st : string) (out : option dict) (err : option string)
    (step : TaskStep) :
  status (step_after now st out err step) = st.
Proof.
  unfold step_after, apply_status.
  destruct (opt_dict_truthy out),
    (String.eqb st "in_progress" && status_is step "pending"),
    (String.eqb st "completed"), (String.eqb st "failed"); reflexivity.
Qed.

(** C1. The counting invariant fails on a reachable storage: after one
    [create_plan] and two [update_step(.., 0, "completed")] calls the plan
    read by [load_plan] still has [total_steps == len(steps)], but its
    [completed_steps] is 2 while one step has status ["completed"]. *)
Theorem completed_steps_drifts :
  reachable demo (run_calls demo completed_twice ∅) /\
  exists plan,
    load_plan demo "t1" (run_calls demo completed_twice ∅)
      = (Ok (Some plan), run_calls demo completed_twice ∅) /\
    total_steps plan = Z.of_nat (length (steps plan)) /\
    completed_steps plan = 2 /\
    count_completed (steps plan) = 1.
Proof.
  split; [apply reachable_run_calls, reachable_empty|].
  eexists. split; [rewrite load_plan_run; vm_compute; reflexivity|].
  vm_compute. auto.
Qed.

(** *** The counting invariant under disciplined use

    The counter does agree with the statuses as long as no call addresses
    a step that is already ["completed"]. *)

Lemma count_completed_pending (f : nat -> string -> TaskStep)
    (descs : list string) :
  (forall n desc, status (f n desc) = "pending") ->
  count_completed (imap f descs) = 0.
Proof.
  revert f. induction descs as [|desc descs IH]; intros f Hf; [reflexivity|].
  rewrite imap_cons, count_completed_cons. unfold status_is.
  rewrite Hf. simpl. apply IH. intros n d. apply Hf.
Qed.

Lemma count_after_insert (now st : string) (out : option dict)
    (err : option string) (l : list TaskStep) (slot : nat) (step : TaskStep)
    (c : Z) :
  l !! slot = Some step ->
  status step <> "completed" ->
  c = count_completed l ->
  count_after st step c
    = count_completed (<[slot := step_after now st out err step]> l).
Proof.
  intros Hstep Hnot ->.
  rewrite (count_completed_insert l slot step _ Hstep).
  unfold status_is at 1 2. rewrite status_after.
  apply String.eqb_neq in Hnot. rewrite Hnot.
  unfold count_after.
  destruct (String.eqb st "in_progress") eqn:Ein.
  - apply String.eqb_eq in Ein. subst st. simpl.
    destruct (status_is step "pending"); lia.
  - simpl. destruct (String.eqb st "completed"); lia.
Qed.

Lemma disciplined_reachable (self : ProgressTracker) (fs : FS) :
  disciplined self fs -> reachable self fs.
Proof. induction 1; constructor; assumption. Qed.

Lemma disciplined_counts (self : ProgressTracker) (fs : FS) :
  disciplined self fs ->
  forall path plan, fs !! path = Some plan ->
    completed_steps plan = count_completed (steps plan).
Proof.
  induction 1 as [|c fs Hd IH Hc]; intros path p Hp.
  - rewrite lookup_empty in Hp. discriminate.
  - pose proof (reachable_store_ok self fs (disciplined_reachable self fs Hd))
      as Hok.
    destruct c as [now tid ttl descs meta|now tid i st out err|now tid data];
      unfold run_call in Hp.
    + destruct (create_plan_run self now tid ttl descs meta fs)
        as (plan & Hrun & _ & _ & Hsteps & _ & Hzero & _).
      rewrite Hrun in Hp. cbn [snd] in Hp.
      destruct (decide (plan_file self tid = path)) as [<-|Hne].
      * rewrite lookup_insert_eq in Hp. injection Hp as <-.
        rewrite Hzero, Hsteps. symmetry. apply count_completed_pending.
        reflexivity.
      * rewrite lookup_insert_ne in Hp by assumption. eauto.
    + destruct (fs !! plan_file self tid) as [plan|] eqn:Hfs;
        [|rewrite update_step_not_found in Hp by assumption; eauto].
      destruct (norm_index (length (steps plan)) i) as [slot|] eqn:Hslot;
        [|erewrite update_step_index_error in Hp by eassumption; eauto].
      destruct (norm_index_Some _ _ _ Hslot) as (Hlt & _).
      destruct (lookup_lt_is_Some_2 _ _ Hlt) as [step Hstep].
      erewrite update_step_run in Hp by eassumption. cbn [snd] in Hp.
      destruct (decide (plan_file self (task_id plan) = path)) as [<-|Hne].
      * rewrite lookup_insert_eq in Hp. injection Hp as <-.
        cbn [completed_steps steps plan_after].
        apply count_after_insert; [exact Hstep| |eauto].
        apply (Hc plan slot step Hfs Hslot Hstep).
      * rewrite lookup_insert_ne in Hp by assumption. eauto.
    + destruct (fs !! plan_file self tid) as [plan|] eqn:Hfs;
        [|rewrite checkpoint_not_found in Hp by assumption; eauto].
      erewrite checkpoint_run in Hp by eassumption. cbn [snd] in Hp.
      destruct (decide (plan_file self (task_id plan) = path)) as [<-|Hne].
      * rewrite lookup_insert_eq in Hp. injection Hp as <-.
        cbn [completed_steps steps plan_checkpointed set_metadata]. eauto.
      * rewrite lookup_insert_ne in Hp by assumption. eauto.
Qed.

(** An [update_step] on an existing plan at an index Python accepts: the
    call returns, and the returned plan is the one persisted. *)
Lemma update_step_returns (self : ProgressTracker) (now tid : string) (i : Z)
    (st : string) (out : option dict) (err : option string) (fs : FS)
    (plan : TaskPlan) :
  store_ok self fs ->
  fs !! plan_file self tid = Some plan ->
  - Z.of_nat (length (steps plan)) <= i < Z.of_nat (length (steps plan)) ->
  exists slot step fs',
    norm_index (length (steps plan)) i = Some slot /\
    steps plan !! slot = Some step /\
    update_step self now tid i st out err fs
      = (Ok (plan_after now i st out err plan slot step), fs') /\
    fs' !! plan_file self tid = Some (plan_after now i st out err plan slot step) /\
    store_ok self fs'.
Proof.
  intros Hok Hfs Hi.
  destruct (norm_index_is_Some _ _ Hi) as [slot Hslot].
  destruct (norm_index_Some _ _ _ Hslot) as (Hlt & _).
  destruct (lookup_lt_is_Some_2 _ _ Hlt) as [step Hstep].
  exists slot, step. eexists.
  split; [exact Hslot|]. split; [exact Hstep|].
  split; [apply update_step_run; eassumption|]. split.
  - rewrite (store_ok_same_file self fs tid plan Hok Hfs).
    apply lookup_insert_eq.
  - pose proof (store_ok_run_call self (UpdateStep now tid i st out err) fs Hok)
      as Hcall.
    unfold run_call in Hcall.
    rewrite (update_step_run self now tid i st out err fs plan slot step)
      in Hcall by assumption.
    exact Hcall.
Qed.

(** C2. Reporting the same step completed a second time increments the
    counter a second time: for every plan on a reachable storage and every
    index in [[0, total_steps)], both calls return, the second one finds
    [completed_steps] one above the value the first call left, and the
    number of steps whose status is ["completed"] is the same after both. *)
Theorem update_step_completed_twice (self : ProgressTracker) (fs : FS)
    (now1 now2 tid : string) (i : Z) (out : option dict) (err : option string)
    (plan : TaskPlan) :
  reachable self fs ->
  load_plan self tid fs = (Ok (Some plan), fs) ->
  0 <= i < total_steps plan ->
  exists plan1 fs1 plan2 fs2,
    update_step self now1 tid i "completed" out err fs = (Ok plan1, fs1) /\
    update_step self now2 tid i "completed" out err fs1 = (Ok plan2, fs2) /\
    completed_steps plan1 = completed_steps plan + 1 /\
    completed_steps plan2 = completed_steps plan1 + 1 /\
    count_completed (steps plan2) = count_completed (steps plan1).
Proof.
  intros Hr Hload Hi. apply load_plan_Some in Hload.
  pose proof (reachable_store_ok self fs Hr) as Hok.
  destruct (Hok _ _ Hload) as (_ & Htot & _).
  destruct (update_step_returns self now1 tid i "completed" out err fs plan
              Hok Hload) as (slot & step & fs1 & Hslot & Hstep & Hrun1 & Hfs1 & Hok1);
    [lia|].
  destruct (norm_index_Some _ _ _ Hslot) as (Hlt & _).
  set (plan1 := plan_after now1 i "completed" out err plan slot step) in *.
  assert (Hlen : length (steps plan1) = length (steps plan))
    by (simpl; apply length_insert).
  destruct (update_step_returns self now2 tid i "completed" out err fs1 plan1
              Hok1 Hfs1) as (slot' & step1 & fs2 & Hslot' & Hstep1 & Hrun2 & _);
    [rewrite Hlen; lia|].
  rewrite Hlen, Hslot in Hslot'. injection Hslot' as <-.
  exists plan1, fs1. eexists. exists fs2.
  split; [exact Hrun1|]. split; [exact Hrun2|].
  assert (Hst1 : status step1 = "completed").
  { simpl in Hstep1. rewrite list_lookup_insert_eq in Hstep1 by assumption.
    injection Hstep1 as <-. apply status_after. }
  subst plan1. split; [reflexivity|]. split; [reflexivity|].
  cbn [steps plan_after] in *.
  rewrite (count_completed_insert _ slot step1 _ Hstep1).
  unfold status_is. rewrite status_after, Hst1. simpl. lia.
Qed.

Lemma update_step_completed_twice_witness :
  exists plan1 fs1 plan2 fs2,
    update_step demo "2026-01-01T09:05:00" "t1" 0 "completed" None None demo_fs
      = (Ok plan1, fs1) /\
    update_step demo "2026-01-01T09:06:00" "t1" 0 "completed" None None fs1
      = (Ok plan2, fs2) /\
    completed_steps plan1 = completed_steps demo_plan + 1 /\
    completed_steps plan2 = completed_steps plan1 + 1 /\
    count_completed (steps plan2) = count_completed (steps plan1).
Proof.
  apply (update_step_completed_twice demo demo_fs).
  - apply reachable_run_calls, reachable_empty.
  - vm_compute. reflexivity.
  - simpl. lia.
Defined.

(** [update_step] stamps the plan it persists with the time of the call. *)
Lemma update_step_sets_updated_at (self : ProgressTracker) (fs fs' : FS)
    (now tid : string) (i : Z) (st : string) (out : option dict)
    (err : option string) (plan' : TaskPlan) :
  reachable self fs ->
  update_step self now tid i st out err fs = (Ok plan', fs') ->
  load_plan self tid fs' = (Ok (Some plan'), fs') /\ updated_at plan' = now.
Proof.
  intros Hr Hrun. pose proof (reachable_store_ok self fs Hr) as Hok.
  destruct (fs !! plan_file self tid) as [plan|] eqn:Hfs;
    [|rewrite update_step_not_found in Hrun by assumption; discriminate].
  destruct (norm_index (length (steps plan)) i) as [slot|] eqn:Hslot;
    [|erewrite update_step_index_error in Hrun by eassumption; discriminate].
  destruct (norm_index_Some _ _ _ Hslot) as (Hlt & _).
  destruct (lookup_lt_is_Some_2 _ _ Hlt) as [step Hstep].
  erewrite update_step_run in Hrun by eassumption.
  injection Hrun as <- <-. split; [|reflexivity].
  apply load_after_save; assumption.
Qed.

(** C3. [checkpoint] does not refresh [updated_at]: on every reachable
    storage holding a plan under [task_id], the call returns and the plan
    it persists carries the [updated_at] it had before, whatever the time
    of the call. *)
Theorem checkpoint_keeps_updated_at (self : ProgressTracker) (fs : FS)
    (now tid : string) (data : dict) (plan : TaskPlan) :
  reachable self fs ->
  load_plan self tid fs = (Ok (Some plan), fs) ->
  exists fs' plan',
    checkpoint self now tid data fs = (Ok tt, fs') /\
    load_plan self tid fs' = (Ok (Some plan'), fs') /\
    updated_at plan' = updated_at plan.
Proof.
  intros Hr Hload. apply load_plan_Some in Hload.
  pose proof (reachable_store_ok self fs Hr) as Hok.
  eexists. exists (plan_checkpointed now data plan).
  split; [apply checkpoint_run; exact Hload|].
  split; [apply load_after_save; assumption|reflexivity].
Qed.

Lemma checkpoint_keeps_updated_at_witness :
  exists fs' plan',
    checkpoint demo "2026-01-01T10:30:00" "t1" {[ "cursor" := JInt 7 ]} demo_fs
      = (Ok tt, fs') /\
    load_plan demo "t1" fs' = (Ok (Some plan'), fs') /\
    updated_at plan' = "2026-01-01T09:00:00".
Proof.
  apply (checkpoint_keeps_updated_at demo demo_fs "2026-01-01T10:30:00" "t1"
           {[ "cursor" := JInt 7 ]} demo_plan).
  - apply reachable_run_calls, reachable_empty.
  - vm_compute. reflexivity.
Defined.

(** ** Outcomes of [update_step] *)

Lemma update_step_Ok_inv (self : ProgressTracker) (fs fs' : FS)
    (now tid : string) (i : Z) (st : string) (out : option dict)
    (err : option string) (plan plan' : TaskPlan) :
  fs !! plan_file self tid = Some plan ->
  update_step self now tid i st out err fs = (Ok plan', fs') ->
  exists slot step,
    norm_index (length (steps plan)) i = Some slot /\
    steps plan !! slot = Some step /\
    plan' = plan_after now i st out err plan slot step /\
    fs' = <[plan_file self (task_id plan) := plan']> fs.
Proof.
  intros Hfs Hrun.
  destruct (norm_index (length (steps plan)) i) as [slot|] eqn:Hslot;
    [|erewrite update_step_index_error in Hrun by eassumption; discriminate].
  destruct (norm_index_Some _ _ _ Hslot) as (Hlt & _).
  destruct (lookup_lt_is_Some_2 _ _ Hlt) as [step Hstep].
  erewrite update_step_run in Hrun by eassumption.
  injection Hrun as <- <-. exists slot, step. auto.
Qed.




(** ** Timestamps of a step *)

Lemma started_at_after (now st : string) (out : option dict)
    (err : option string) (step : TaskStep) :
  started_at (step_after now st out err step)
    = if String.eqb st "in_progress" && status_is step "pending"
      then Some now else started_at step.
Proof.
  unfold step_after, apply_status.
  destruct (opt_dict_truthy out),
    (String.eqb st "in_progress" && status_is step "pending"),
    (String.eqb st "completed"), (String.eqb st "failed"); reflexivity.
Qed.

Lemma completed_at_after (now st : string) (out : option dict)
    (err : option string) (step : TaskStep) :
  completed_at (step_after now st out err step)
    = if String.eqb st "in_progress" && status_is step "pending"
      then completed_at step
      else if String.eqb st "completed" || String.eqb st "failed"
      then Some now else completed_at step.
Proof.
  unfold step_after, apply_status.
  destruct (opt_dict_truthy out),
    (String.eqb st "in_progress" && status_is step "pending"),
    (String.eqb st "completed"), (String.eqb st "failed"); reflexivity.
Qed.

(** A step that is in progress keeps its [started_at] through any number
    of further [in_progress] updates. *)
Lemma repeated_in_progress (self : ProgressTracker) (tid : string) (i : Z)
    (slot : nat) (v : option string) (cs : list call) :
  Forall (in_progress_again tid i) cs ->
  forall (fs : FS) (plan : TaskPlan) (step : TaskStep),
    store_ok self fs ->
    fs !! plan_file self tid = Some plan ->
    norm_index (length (steps plan)) i = Some slot ->
    steps plan !! slot = Some step ->
    status step = "in_progress" ->
    started_at step = v ->
    exists plan' step',
      run_calls self cs fs !! plan_file self tid = Some plan' /\
      steps plan' !! slot = Some step' /\
      status step' = "in_progress" /\
      started_at step' = v.
Proof.
  induction 1 as [|c cs (now & out & err & ->) _ IH];
    intros fs plan step Hok Hfs Hslot Hstep Hst Hv.
  - exists plan, step. auto.
  - destruct (norm_index_Some _ _ _ Hslot) as (Hlt & Hi & _).
    destruct (update_step_returns self now tid i "in_progress" out err fs plan
                Hok Hfs Hi)
      as (slot' & step0 & fs' & Hslot' & Hstep0 & Hrun & Hfs' & Hok').
    rewrite Hslot in Hslot'. injection Hslot' as <-.
    rewrite Hstep in Hstep0. injection Hstep0 as <-.
    change (run_calls self (UpdateStep now tid i "in_progress" out err :: cs) fs)
      with (run_calls self cs
              (snd (update_step self now tid i "in_progress" out err fs))).
    rewrite Hrun. cbn [snd].
    apply (IH fs' _ (step_after now "in_progress" out err step) Hok' Hfs').
    + cbn [steps plan_after]. rewrite length_insert. exact Hslot.
    + cbn [steps plan_after]. apply list_lookup_insert_eq. exact Hlt.
    + apply status_after.
    + rewrite started_at_after. unfold status_is. rewrite Hst. exact Hv.
Qed.

(** C5. For an [update_step] that returns, on a plan of a reachable
    storage: (a) a step's [started_at] differs after the call only if the
    call reports ["in_progress"] on the addressed step and that step was
    ["pending"], and then it is the time of the call; (b) after an
    ["in_progress"] update, any number of further ["in_progress"] updates
    of the same step leave its [started_at] as that update left it, which
    for a step that was ["pending"] is the time of that update; (c) a
    ["completed"] and a ["failed"] update both set the step's
    [completed_at] to the time of the call. *)
Theorem update_step_timestamps (self : ProgressTracker) (fs fs' : FS)
    (now tid : string) (i : Z) (st : string) (out : option dict)
    (err : option string) (plan plan' : TaskPlan) :
  reachable self fs ->
  load_plan self tid fs = (Ok (Some plan), fs) ->
  update_step self now tid i st out err fs = (Ok plan', fs') ->
  exists slot step step',
    norm_index (length (steps plan)) i = Some slot /\
    steps plan !! slot = Some step /\
    steps plan' !! slot = Some step' /\
    (forall n old new,
       steps plan !! n = Some old -> steps plan' !! n = Some new ->
       started_at new <> started_at old ->
       n = slot /\ st = "in_progress" /\ status old = "pending" /\
       started_at new = Some now) /\
    (st = "in_progress" ->
     (status step = "pending" -> started_at step' = Some now) /\
     forall cs, Forall (in_progress_again tid i) cs ->
       exists plan'' step'',
         load_plan self tid (run_calls self cs fs')
           = (Ok (Some plan''), run_calls self cs fs') /\
         steps plan'' !! slot = Some step'' /\
         started_at step'' = started_at step') /\
    (st = "completed" \/ st = "failed" -> completed_at step' = Some now).
Proof.
  intros Hr Hload Hrun. apply load_plan_Some in Hload.
  pose proof (reachable_store_ok self fs Hr) as Hok.
  destruct (update_step_Ok_inv self fs fs' now tid i st out err plan plan'
              Hload Hrun) as (slot & step & Hslot & Hstep & -> & ->).
  destruct (norm_index_Some _ _ _ Hslot) as (Hlt & Hi & _).
  exists slot, step, (step_after now st out err step).
  split; [exact Hslot|]. split; [exact Hstep|].
  cbn [steps plan_after].
  split; [apply list_lookup_insert_eq; exact Hlt|].
  split; [|split].
  - intros n old new Hold Hnew Hdiff.
    destruct (decide (n = slot)) as [->|Hne].
    + rewrite list_lookup_insert_eq in Hnew by exact Hlt.
      injection Hnew as <-. rewrite Hstep in Hold. injection Hold as <-.
      rewrite started_at_after in Hdiff |- *.
      destruct (String.eqb st "in_progress") eqn:Est;
        [|simpl in Hdiff; congruence].
      destruct (status_is step "pending") eqn:Ep;
        [|simpl in Hdiff; congruence].
      apply String.eqb_eq in Est, Ep. auto.
    + rewrite list_lookup_insert_ne in Hnew by congruence. congruence.
  - intros ->. split.
    + intros Hp. rewrite started_at_after. unfold status_is. rewrite Hp.
      reflexivity.
    + intros cs Hcs.
      destruct (update_step_returns self now tid i "in_progress" out err fs plan
                  Hok Hload Hi)
        as (slot' & step0 & fs1 & Hslot' & Hstep0 & Hrun' & Hfs1 & Hok1).
      rewrite Hslot in Hslot'. injection Hslot' as <-.
      rewrite Hstep in Hstep0. injection Hstep0 as <-.
      destruct (repeated_in_progress self tid i slot
                  (started_at (step_after now "in_progress" out err step)) cs Hcs
                  fs1 _ (step_after now "in_progress" out err step) Hok1 Hfs1)
        as (plan'' & step'' & Hfs'' & Hstep'' & _ & Hv).
      * cbn [steps plan_after]. rewrite length_insert. exact Hslot.
      * cbn [steps plan_after]. apply list_lookup_insert_eq. exact Hlt.
      * apply status_after.
      * reflexivity.
      * exists plan'', step''.
        replace fs1 with (snd (update_step self now tid i "in_progress" out err fs))
          in Hfs'' by (rewrite Hrun'; reflexivity).
        rewrite Hrun in Hfs''. cbn [snd] in Hfs''.
        split; [apply load_plan_Some; exact Hfs''|]. auto.
  - intros Hst. rewrite completed_at_after.
    destruct Hst as [-> | ->]; reflexivity.
Qed.

Lemma update_step_timestamps_witness :
  exists slot step step',
    norm_index (length (steps demo_plan)) 0 = Some slot /\
    steps demo_plan !! slot = Some step /\
    steps demo_plan_started !! slot = Some step' /\
    (forall n old new,
       steps demo_plan !! n = Some old ->
       steps demo_plan_started !! n = Some new ->
       started_at new <> started_at old ->
       n = slot /\ "in_progress" = "in_progress" /\ status old = "pending" /\
       started_at new = Some "2026-01-01T09:05:00") /\
    ("in_progress" = "in_progress" ->
     (status step = "pending" -> started_at step' = Some "2026-01-01T09:05:00") /\
     forall cs, Forall (in_progress_again "t1" 0) cs ->
       exists plan'' step'',
         load_plan demo "t1" (run_calls demo cs demo_fs_started)
           = (Ok (Some plan''), run_calls demo cs demo_fs_started) /\
         steps plan'' !! slot = Some step'' /\
         started_at step'' = started_at step') /\
    ("in_progress" = "completed" \/ "in_progress" = "failed" ->
     completed_at step' = Some "2026-01-01T09:05:00").
Proof.
  apply (update_step_timestamps demo demo_fs demo_fs_started
           "2026-01-01T09:05:00" "t1" 0 "in_progress" None None
           demo_plan demo_plan_started).
  - apply reachable_run_calls, reachable_empty.
  - vm_compute. reflexivity.
  - vm_compute. reflexivity.
Defined.

(** ** Checkpoints *)

(** The round trip of a checkpoint through the plan file depends on what
    [json.dump] and [json.load] do to the payload: it is stated at the end,
    over Python payloads and files that can fail. *)



(** ** The next pending step *)

Lemma first_pending_Some (l : list TaskStep) (step : TaskStep) :
  first_pending l = Some step <->
  exists n,
    l !! n = Some step /\ status step = "pending" /\
    forall m s, (m < n)%nat -> l !! m = Some s -> status s <> "pending".
Proof.
  induction l as [|x l IH]; simpl.
  - split; [discriminate|]. intros (n & Hn & _). discriminate.
  - destruct (status_is x "pending") eqn:Ex.
    + apply String.eqb_eq in Ex. split.
      * intros [= <-]. exists 0%nat. repeat split; [assumption|]. lia.
      * intros ([|n] & Hn & Hst & Hfirst).
        -- simpl in Hn. congruence.
        -- exfalso. apply (Hfirst 0%nat x); [lia|reflexivity|exact Ex].
    + apply String.eqb_neq in Ex. rewrite IH. split.
      * intros (n & Hn & Hst & Hfirst). exists (S n).
        repeat split; [exact Hn|exact Hst|].
        intros [|m] s Hm Hs; simpl in Hs.
        -- congruence.
        -- apply (Hfirst m s); [lia|exact Hs].
      * intros ([|n] & Hn & Hst & Hfirst); simpl in Hn.
        -- congruence.
        -- exists n. repeat split; [exact Hn|exact Hst|].
           intros m s Hm Hs. apply (Hfirst (S m) s); [lia|exact Hs].
Qed.

Lemma first_pending_None (l : list TaskStep) :
  first_pending l = None <-> forall s, s ∈ l -> status s <> "pending".
Proof.
  induction l as [|x l IH]; simpl.
  - split; [|reflexivity]. intros _ s Hs. apply elem_of_nil in Hs. contradiction.
  - destruct (status_is x "pending") eqn:Ex.
    + apply String.eqb_eq in Ex. split; [discriminate|].
      intros Hall. exfalso. apply (Hall x); [left|exact Ex].
    + apply String.eqb_neq in Ex. rewrite IH. split.
      * intros Hall s Hs. apply elem_of_cons in Hs as [->|Hs]; auto.
      * intros Hall s Hs. apply Hall. right. exact Hs.
Qed.

(** C8. [get_next_step] returns absent when no plan is stored under
    [task_id]; on a stored plan it returns without touching the storage,
    and what it returns is a step exactly when that step is the first one,
    in the order of [steps], whose status is ["pending"]; it returns absent
    exactly when no step is ["pending"], in particular when every step is
    ["completed"] or ["failed"], and on a plan without steps. *)
Theorem get_next_step_first_pending (self : ProgressTracker) (fs : FS)
    (tid : string) :
  (load_plan self tid fs = (Ok None, fs) ->
   get_next_step self tid fs = (Ok None, fs)) /\
  (forall plan, load_plan self tid fs = (Ok (Some plan), fs) ->
     exists r,
       get_next_step self tid fs = (Ok r, fs) /\
       (forall step,
          r = Some step <->
          exists n,
            steps plan !! n = Some step /\ status step = "pending" /\
            forall m s, (m < n)%nat -> steps plan !! m = Some s ->
                        status s <> "pending") /\
       (r = None <-> forall s, s ∈ steps plan -> status s <> "pending") /\
       ((forall s, s ∈ steps plan ->
           status s = "completed" \/ status s = "failed") -> r = None) /\
       (steps plan = [] -> r = None)).
Proof.
  split.
  - intros Hload. apply load_plan_None in Hload.
    unfold get_next_step, bind. rewrite load_plan_run, Hload. reflexivity.
  - intros plan Hload. apply load_plan_Some in Hload.
    exists (first_pending (steps plan)). split.
    { unfold get_next_step, bind. rewrite load_plan_run, Hload. reflexivity. }
    split; [intros step; apply first_pending_Some|].
    split; [apply first_pending_None|]. split.
    + intros Hall. apply first_pending_None. intros s Hs.
      destruct (Hall s Hs) as [-> | ->]; discriminate.
    + intros ->. reflexivity.
Qed.

Lemma get_next_step_first_pending_witness :
  get_next_step demo "missing" demo_fs_started = (Ok None, demo_fs_started) /\
  exists r,
    get_next_step demo "t1" demo_fs_started = (Ok r, demo_fs_started) /\
    (r = Some (new_step "t1" 1 "step B") <->
     exists n,
       steps demo_plan_started !! n = Some (new_step "t1" 1 "step B") /\
       status (new_step "t1" 1 "step B") = "pending" /\
       forall m s, (m < n)%nat -> steps demo_plan_started !! m = Some s ->
                   status s <> "pending").
Proof.
  destruct (get_next_step_first_pending demo demo_fs_started "missing")
    as [Habsent _].
  destruct (get_next_step_first_pending demo demo_fs_started "t1")
    as [_ Hstored].
  split.
  - apply Habsent. vm_compute. reflexivity.
  - destruct (Hstored demo_plan_started) as (r & Hrun & Hfirst & _).
    + vm_compute. reflexivity.
    + exists r. split; [exact Hrun|apply Hfirst].
Defined.

(** ** Rounding *)

(** [PyFloat.nearest_even] is exact on integers and otherwise within half a
    unit of the scaled value: [round] picks a nearest decimal. *)
Lemma nearest_even_exact (m : positive) (e k : Z) :
  0 <= e -> PyFloat.nearest_even m e k = Z.pos m * k * 2 ^ e.
Proof.
  intros He. unfold PyFloat.nearest_even.
  destruct (0 <=? e) eqn:E; [reflexivity|]. apply Z.leb_gt in E. lia.
Qed.

Lemma nearest_even_close (m : positive) (e k : Z) :
  e < 0 ->
  2 * Z.abs (PyFloat.nearest_even m e k * 2 ^ (- e) - Z.pos m * k) <= 2 ^ (- e).
Proof.
  intros He. unfold PyFloat.nearest_even.
  destruct (0 <=? e) eqn:E; [apply Z.leb_le in E; lia|].
  assert (Hd : 0 < 2 ^ (- e)) by (apply Z.pow_pos_nonneg; lia).
  pose proof (Z.div_mod (Z.pos m * k) (2 ^ (- e)) ltac:(lia)) as Hdiv.
  pose proof (Z.mod_pos_bound (Z.pos m * k) (2 ^ (- e)) Hd) as Hmod.
  set (n := Z.pos m * k) in *. set (d := 2 ^ (- e)) in *.
  set (q := n / d) in *. set (r := n mod d) in *.
  destruct (Z.compare_spec (2 * r) d) as [Heq|Hlt|Hgt].
  - destruct (Z.even q); nia.
  - nia.
  - nia.
Qed.

Example round_quarter :
  PyFloat.round (S754_finite false 4503599627370496 (-54)) 1
    = S754_finite false 7205759403792794 (-55).
Proof. vm_compute. reflexivity. Qed.

Example percentage_one_third :
  PyFloat.int_truediv 1 3 = Ok (S754_finite false 6004799503160661 (-54)) /\
  PyFloat.round
    (PyFloat.mul_int (S754_finite false 6004799503160661 (-54)) 100) 1
    = S754_finite false 4686558362232422 (-47).
Proof. split; vm_compute; reflexivity. Qed.

(** ** The progress summary *)

Lemma int_truediv_zero (a : Z) :
  PyFloat.int_truediv a 0 = Raise ZeroDivisionError.
Proof. reflexivity. Qed.

Lemma int_truediv_nonzero (a b : Z) :
  b <> 0 ->
  (exists q, PyFloat.int_truediv a b = Ok q) \/
  PyFloat.int_truediv a b = Raise OverflowError.
Proof.
  intros Hb. unfold PyFloat.int_truediv.
  destruct (b =? 0) eqn:E; [apply Z.eqb_eq in E; contradiction|].
  destruct (PyFloat.of_ratio _ _ _); eauto.
Qed.

Lemma int_truediv_ZeroDivisionError (a b : Z) :
  PyFloat.int_truediv a b = Raise ZeroDivisionError <-> b = 0.
Proof.
  split; [|intros ->; apply int_truediv_zero].
  intros H. destruct (decide (b = 0)) as [Hb|Hb]; [exact Hb|].
  destruct (int_truediv_nonzero a b Hb) as [[q Hq]|Ho]; congruence.
Qed.

Lemma current_step_text_Ok (plan : TaskPlan) :
  - Z.of_nat (length (steps plan)) <= current_step_index plan ->
  exists text, current_step_text plan = Ok text.
Proof.
  intros Hcur. unfold current_step_text.
  destruct (current_step_index plan <? Z.of_nat (length (steps plan))) eqn:E;
    [|eauto].
  apply Z.ltb_lt in E.
  destruct (norm_index_is_Some (length (steps plan)) (current_step_index plan))
    as [slot Hslot]; [lia|].
  destruct (norm_index_Some _ _ _ Hslot) as (Hlt & _).
  destruct (lookup_lt_is_Some_2 _ _ Hlt) as [step Hstep].
  unfold list_getitem, list_locate. rewrite Hslot, Hstep. eauto.
Qed.

Lemma current_step_text_Raise (plan : TaskPlan) (e : exn) :
  current_step_text plan = Raise e -> e = IndexError.
Proof.
  unfold current_step_text.
  destruct (current_step_index plan <? Z.of_nat (length (steps plan)));
    [|discriminate].
  destruct (list_getitem _ _) as [step|e'] eqn:E; [discriminate|].
  intros [= <-]. apply list_getitem_Raise in E. tauto.
Qed.

Lemma summary_run (self : ProgressTracker) (fs : FS) (tid : string)
    (plan : TaskPlan) (q : spec_float) (text : string) :
  fs !! plan_file self tid = Some plan ->
  PyFloat.int_truediv (completed_steps plan) (total_steps plan) = Ok q ->
  current_step_text plan = Ok text ->
  get_progress_summary self tid fs = (Ok (summary_of tid plan q text), fs).
Proof.
  intros Hfs Hq Htext. unfold get_progress_summary, bind, lift.
  rewrite load_plan_run, Hfs, Hq, Htext. reflexivity.
Qed.

Lemma summary_division_raises (self : ProgressTracker) (fs : FS) (tid : string)
    (plan : TaskPlan) (e : exn) :
  fs !! plan_file self tid = Some plan ->
  PyFloat.int_truediv (completed_steps plan) (total_steps plan) = Raise e ->
  get_progress_summary self tid fs = (Raise e, fs).
Proof.
  intros Hfs Hq. unfold get_progress_summary, bind, lift.
  rewrite load_plan_run, Hfs, Hq. reflexivity.
Qed.

Lemma summary_of_lookups (tid : string) (plan : TaskPlan) (q : spec_float)
    (text : string) :
  summary_of tid plan q text !! "percentage"
    = Some (JFloat (PyFloat.round (PyFloat.mul_int q 100) 1)) /\
  summary_of tid plan q text !! "progress"
    = Some (JStr (pretty (completed_steps plan) +:+ "/"
                  +:+ pretty (total_steps plan))) /\
  summary_of tid plan q text !! "status"
    = Some (JStr (if completed_steps plan =? total_steps plan
                  then "complete" else "in_progress")).
Proof.
  unfold summary_of. cbn [list_to_map foldr uncurry fst snd].
  repeat split;
    repeat (rewrite lookup_insert_ne by discriminate);
    apply lookup_insert_eq.
Qed.

(** C9 as written fails: the plan created from an empty list of steps
    exists, and [get_progress_summary] raises [ZeroDivisionError] on it
    instead of returning a percentage. *)
Lemma summary_has_percentage_fails :
  ~ summary_has_percentage demo empty_fs "idle".
Proof.
  intros H. destruct (H empty_plan) as (d & q & Hd & _).
  - vm_compute. reflexivity.
  - vm_compute in Hd. discriminate Hd.
Qed.

(** C9, amended. On a reachable storage [get_progress_summary] returns the
    error record [{"error": "Task not found"}] when no plan is stored under
    [task_id].  For a stored plan with [total_steps <> 0] whose quotient
    [completed_steps / total_steps] is the float [q], it returns a summary
    whose percentage is [round(q * 100, 1)], whose progress string is
    ["completed/total"], and whose status is ["complete"] exactly when
    [completed_steps == total_steps] and ["in_progress"] otherwise; the only
    exception left for such a plan is the [OverflowError] of a quotient
    beyond the floats. *)
Theorem progress_summary (self : ProgressTracker) (fs : FS) (tid : string) :
  reachable self fs ->
  (load_plan self tid fs = (Ok None, fs) ->
   get_progress_summary self tid fs
     = (Ok {[ "error" := JStr "Task not found" ]}, fs)) /\
  (forall plan, load_plan self tid fs = (Ok (Some plan), fs) ->
     total_steps plan <> 0 ->
     (forall q,
        PyFloat.int_truediv (completed_steps plan) (total_steps plan) = Ok q ->
        exists d,
          get_progress_summary self tid fs = (Ok d, fs) /\
          d !! "percentage"
            = Some (JFloat (PyFloat.round (PyFloat.mul_int q 100) 1)) /\
          d !! "progress"
            = Some (JStr (pretty (completed_steps plan) +:+ "/"
                          +:+ pretty (total_steps plan))) /\
          (d !! "status" = Some (JStr "complete") <->
           completed_steps plan = total_steps plan) /\
          (d !! "status" = Some (JStr "in_progress") <->
           completed_steps plan <> total_steps plan)) /\
     (forall e, fst (get_progress_summary self tid fs) = Raise e ->
        e = OverflowError)).
Proof.
  intros Hr. pose proof (reachable_store_ok self fs Hr) as Hok. split.
  - intros Hload. apply load_plan_None in Hload.
    unfold get_progress_summary, bind. rewrite load_plan_run, Hload.
    reflexivity.
  - intros plan Hload Htot. apply load_plan_Some in Hload.
    destruct (Hok _ _ Hload) as (_ & _ & Hcur).
    destruct (current_step_text_Ok plan Hcur) as [text Htext]. split.
    + intros q Hq. exists (summary_of tid plan q text).
      split; [apply summary_run; assumption|].
      destruct (summary_of_lookups tid plan q text) as (-> & -> & ->).
      split; [reflexivity|]. split; [reflexivity|].
      destruct (completed_steps plan =? total_steps plan) eqn:E.
      * apply Z.eqb_eq in E. split; split; try tauto; try discriminate.
      * apply Z.eqb_neq in E. split; split; try tauto; try discriminate.
    + intros e He.
      destruct (int_truediv_nonzero (completed_steps plan) (total_steps plan) Htot)
        as [[q Hq]|Hq].
      * rewrite (summary_run self fs tid plan q text Hload Hq Htext) in He.
        discriminate He.
      * rewrite (summary_division_raises self fs tid plan _ Hload Hq) in He.
        simpl in He. congruence.
Qed.

Lemma progress_summary_witness :
  get_progress_summary demo "missing" demo_fs_half
    = (Ok {[ "error" := JStr "Task not found" ]}, demo_fs_half) /\
  exists d,
    get_progress_summary demo "t1" demo_fs_half = (Ok d, demo_fs_half) /\
    d !! "percentage" = Some (JFloat fifty) /\
    d !! "progress" = Some (JStr "1/2") /\
    (d !! "status" = Some (JStr "complete") <->
     completed_steps demo_plan_half = total_steps demo_plan_half) /\
    (d !! "status" = Some (JStr "in_progress") <->
     completed_steps demo_plan_half <> total_steps demo_plan_half).
Proof.
  assert (Hr : reachable demo demo_fs_half)
    by apply reachable_run_calls, reachable_empty.
  destruct (progress_summary demo demo_fs_half "missing" Hr) as [Hmissing _].
  destruct (progress_summary demo demo_fs_half "t1" Hr) as [_ Hstored].
  split.
  - apply Hmissing. vm_compute. reflexivity.
  - destruct (Hstored demo_plan_half) as [Hreturn _].
    + vm_compute. reflexivity.
    + simpl. lia.
    + apply (Hreturn (S754_finite false 4503599627370496 (-53))).
      vm_compute. reflexivity.
Defined.

(** C10. [create_plan] accepts an empty list of descriptions and persists a
    plan with [total_steps == 0]; the division of [get_progress_summary]
    raises [ZeroDivisionError] exactly on a zero divisor, so on a stored
    plan the summary raises it exactly when [total_steps == 0]: for every
    zero-step plan, and for no other. *)
Theorem zero_step_plan_summary (self : ProgressTracker) :
  (forall fs now tid ttl meta,
     exists plan fs',
       create_plan self now tid ttl [] meta fs = (Ok plan, fs') /\
       load_plan self tid fs' = (Ok (Some plan), fs') /\
       steps plan = [] /\ total_steps plan = 0) /\
  (forall a b, PyFloat.int_truediv a b = Raise ZeroDivisionError <-> b = 0) /\
  (forall fs tid plan,
     load_plan self tid fs = (Ok (Some plan), fs) ->
     (get_progress_summary self tid fs = (Raise ZeroDivisionError, fs) <->
      total_steps plan = 0)).
Proof.
  split; [|split].
  - intros fs now tid ttl meta.
    destruct (create_plan_run self now tid ttl [] meta fs)
      as (plan & Hrun & _ & _ & Hsteps & Htot & _).
    exists plan. eexists. split; [exact Hrun|].
    split; [|split; assumption].
    rewrite load_plan_run, lookup_insert_eq. reflexivity.
  - apply int_truediv_ZeroDivisionError.
  - intros fs tid plan Hload. apply load_plan_Some in Hload. split.
    + intros Hraise.
      destruct (PyFloat.int_truediv (completed_steps plan) (total_steps plan))
        as [q|e] eqn:Hq.
      * exfalso. unfold get_progress_summary, bind, lift in Hraise.
        rewrite load_plan_run, Hload, Hq in Hraise.
        destruct (current_step_text plan) as [text|e] eqn:Htext;
          [discriminate Hraise|].
        apply current_step_text_Raise in Htext. subst e.
        discriminate Hraise.
      * rewrite (summary_division_raises self fs tid plan e Hload Hq) in Hraise.
        injection Hraise as ->.
        apply int_truediv_ZeroDivisionError in Hq. exact Hq.
    + intros Hzero. apply (summary_division_raises self fs tid plan);
        [exact Hload|].
      rewrite Hzero. apply int_truediv_zero.
Qed.

Lemma zero_step_plan_summary_witness :
  (exists plan fs',
     create_plan demo "2026-01-03T07:00:00" "idle" "Nothing to do" [] None ∅
       = (Ok plan, fs') /\
     load_plan demo "idle" fs' = (Ok (Some plan), fs') /\
     steps plan = [] /\ total_steps plan = 0) /\
  get_progress_summary demo "idle" empty_fs = (Raise ZeroDivisionError, empty_fs).
Proof.
  destruct (zero_step_plan_summary demo) as (Hcreate & _ & Hsummary).
  split; [apply Hcreate|].
  apply (Hsummary empty_fs "idle" empty_plan).
  - vm_compute. reflexivity.
  - reflexivity.
Defined.

(** ** The scenarios of the specification *)

Example scenario_A :
  create_plan demo "2026-01-01T09:00:00" "t1" "Demo" [ "step A"; "step B" ] None ∅
    = (Ok demo_plan, demo_fs) /\
  total_steps demo_plan = 2 /\ completed_steps demo_plan = 0 /\
  map status (steps demo_plan) = [ "pending"; "pending" ].
Proof. split; [vm_compute; reflexivity|]. repeat split. Qed.

Example scenario_B :
  update_step demo "2026-01-01T09:05:00" "t1" 0 "in_progress" None None demo_fs
    = (Ok demo_plan_started, demo_fs_started) /\
  map started_at (steps demo_plan_started)
    = [ Some "2026-01-01T09:05:00"; None ] /\
  map status (steps demo_plan_started) = [ "in_progress"; "pending" ] /\
  current_step_index demo_plan_started = 0.
Proof. split; [vm_compute; reflexivity|]. repeat split. Qed.

Example scenario_C :
  update_step demo "2026-01-01T09:20:00" "t1" 0 "completed"
    (Some {[ "ok" := JBool true ]}) None demo_fs_started
    = (Ok demo_plan_half, demo_fs_half) /\
  completed_steps demo_plan_half = 1 /\
  map status (steps demo_plan_half) = [ "completed"; "pending" ] /\
  map completed_at (steps demo_plan_half)
    = [ Some "2026-01-01T09:20:00"; None ] /\
  map output (steps demo_plan_half) = [ Some {[ "ok" := JBool true ]}; None ].
Proof. split; [vm_compute; reflexivity|]. repeat split. Qed.

Example scenario_E :
  load_plan demo "nonexistent" demo_fs = (Ok None, demo_fs).
Proof. vm_compute. reflexivity. Qed.

Example scenario_F :
  update_step demo "2026-01-01T09:05:00" "t1" 5 "completed" None None demo_fs
    = (Raise IndexError, demo_fs).
Proof. vm_compute. reflexivity. Qed.

(** * Further properties of the tracker *)

(** ** File names *)

Lemma string_length_append (a b : string) :
  String.length (a +:+ b) = (String.length a + String.length b)%nat.
Proof. induction a as [|ch a IH]; simpl; [reflexivity|]. rewrite IH. reflexivity. Qed.

Lemma string_append_inj_l (a b c : string) : a +:+ c = b +:+ c -> a = b.
Proof.
  revert b. induction a as [|ch a IH]; intros [|ch' b] H; simpl in H.
  - reflexivity.
  - exfalso. apply (f_equal String.length) in H.
    rewrite ?string_length_append in H. simpl in H.
    rewrite ?string_length_append in H. lia.
  - exfalso. apply (f_equal String.length) in H.
    rewrite ?string_length_append in H. simpl in H.
    rewrite ?string_length_append in H. lia.
  - injection H as -> H. f_equal. apply IH. exact H.
Qed.

Lemma string_append_inj_r (a b c : string) : a +:+ b = a +:+ c -> b = c.
Proof.
  induction a as [|ch a IH]; simpl; intros H; [exact H|].
  injection H as H. apply IH. exact H.
Qed.

(** Two task ids never share a plan file. *)
(** Two plain task ids have two plan files. *)
Lemma plan_file_inj (self : ProgressTracker) (tid tid' : string) :
  Wire.plain tid = true -> Wire.plain tid' = true ->
  plan_file self tid = plan_file self tid' -> tid = tid'.
Proof.
  unfold plan_file. intros _ _ H.
  apply string_append_inj_r in H. apply string_append_inj_r in H.
  apply string_append_inj_l in H. exact H.
Qed.

(** ** An induction principle for the plans of a reachable storage *)

Lemma create_plan_closed (self : ProgressTracker) (now tid ttl : string)
    (descs : list string) (meta : option dict) (fs : FS) :
  create_plan self now tid ttl descs meta fs
    = (Ok (plan_created now tid ttl descs meta),
       <[plan_file self tid := plan_created now tid ttl descs meta]> fs).
Proof. reflexivity. Qed.

Lemma reachable_plans (self : ProgressTracker) (P : TaskPlan -> Prop) :
  (forall now tid ttl descs meta, P (plan_created now tid ttl descs meta)) ->
  (forall now i st out err plan slot step,
     P plan ->
     norm_index (length (steps plan)) i = Some slot ->
     steps plan !! slot = Some step ->
     P (plan_after now i st out err plan slot step)) ->
  (forall now data plan, P plan -> P (plan_checkpointed now data plan)) ->
  forall fs, reachable self fs ->
  forall path plan, fs !! path = Some plan -> P plan.
Proof.
  intros Hcreate Hupdate Hcheckpoint fs Hr.
  induction Hr as [|c fs Hr IH]; intros path p Hp.
  - rewrite lookup_empty in Hp. discriminate.
  - destruct c as [now tid ttl descs meta|now tid i st out err|now tid data];
      unfold run_call in Hp.
    + rewrite create_plan_closed in Hp. cbn [snd] in Hp.
      destruct (decide (plan_file self tid = path)) as [<-|Hne].
      * rewrite lookup_insert_eq in Hp. injection Hp as <-. apply Hcreate.
      * rewrite lookup_insert_ne in Hp by assumption. eauto.
    + destruct (fs !! plan_file self tid) as [plan|] eqn:Hfs;
        [|rewrite update_step_not_found in Hp by assumption; eauto].
      destruct (norm_index (length (steps plan)) i) as [slot|] eqn:Hslot;
        [|erewrite update_step_index_error in Hp by eassumption; eauto].
      destruct (norm_index_Some _ _ _ Hslot) as (Hlt & _).
      destruct (lookup_lt_is_Some_2 _ _ Hlt) as [step Hstep].
      erewrite update_step_run in Hp by eassumption. cbn [snd] in Hp.
      destruct (decide (plan_file self (task_id plan) = path)) as [<-|Hne].
      * rewrite lookup_insert_eq in Hp. injection Hp as <-.
        apply Hupdate; eauto.
      * rewrite lookup_insert_ne in Hp by assumption. eauto.
    + destruct (fs !! plan_file self tid) as [plan|] eqn:Hfs;
        [|rewrite checkpoint_not_found in Hp by assumption; eauto].
      erewrite checkpoint_run in Hp by eassumption. cbn [snd] in Hp.
      destruct (decide (plan_file self (task_id plan) = path)) as [<-|Hne].
      * rewrite lookup_insert_eq in Hp. injection Hp as <-.
        apply Hcheckpoint; eauto.
      * rewrite lookup_insert_ne in Hp by assumption. eauto.
Qed.

Lemma id_after (now st : string) (out : option dict) (err : option string)
    (step : TaskStep) :
  id (step_after now st out err step) = id step /\
  description (step_after now st out err step) = description step.
Proof.
  unfold step_after, apply_status.
  destruct (opt_dict_truthy out),
    (String.eqb st "in_progress" && status_is step "pending"),
    (String.eqb st "completed"), (String.eqb st "failed"); split; reflexivity.
Qed.

Lemma count_after_bounds (st : string) (step : TaskStep) (c : Z) :
  count_after st step c = c + (if String.eqb st "completed" then 1 else 0).
Proof.
  unfold count_after.
  destruct (String.eqb st "in_progress") eqn:Ein.
  - apply String.eqb_eq in Ein. subst st. simpl.
    destruct (status_is step "pending"); lia.
  - simpl. destruct (String.eqb st "completed"); lia.
Qed.

Lemma reachable_plan_sound (self : ProgressTracker) (fs : FS) :
  reachable self fs ->
  forall path plan, fs !! path = Some plan -> plan_sound plan.
Proof.
  apply (reachable_plans self plan_sound).
  - intros now tid ttl descs meta. unfold plan_sound, plan_created.
    cbn [steps task_id completed_steps current_step_index].
    split; [|split].
    + intros i step Hi. rewrite list_lookup_imap in Hi.
      destruct (descs !! i) as [desc|]; [|discriminate].
      injection Hi as <-. reflexivity.
    + lia.
    + intros Hne. destruct descs as [|desc descs]; [contradiction|].
      rewrite length_imap. simpl. lia.
  - intros now i st out err plan slot step (Hids & Hpos & Hcur) Hslot Hstep.
    destruct (norm_index_Some _ _ _ Hslot) as (Hlt & Hi & _).
    unfold plan_sound, plan_after.
    cbn [steps task_id completed_steps current_step_index].
    split; [|split].
    + intros n s Hn.
      destruct (decide (n = slot)) as [->|Hne].
      * rewrite list_lookup_insert_eq in Hn by exact Hlt.
        injection Hn as <-.
        rewrite (proj1 (id_after now st out err step)). auto.
      * rewrite list_lookup_insert_ne in Hn by congruence. auto.
    + rewrite count_after_bounds. destruct (String.eqb st "completed"); lia.
    + rewrite length_insert. intros Hne.
      destruct (String.eqb st "in_progress"); [lia|].
      apply Hcur. intros Hnil. rewrite Hnil in Hlt. simpl in Hlt. lia.
  - intros now data plan Hsound. exact Hsound.
Qed.

(** ** Creating a plan *)


(** X2. On a reachable storage the steps of a stored plan carry the ids
    ["<task_id>_step_<position>"], for the [task_id] the plan itself
    records: no call changes an id, and no two steps of a plan share one. *)
Theorem step_ids_from_task_id (self : ProgressTracker) (fs : FS) (tid : string)
    (plan : TaskPlan) :
  reachable self fs ->
  load_plan self tid fs = (Ok (Some plan), fs) ->
  (forall i step, steps plan !! i = Some step ->
     id step = task_id plan +:+ "_step_" +:+ pretty i) /\
  NoDup (id <$> steps plan).
Proof.
  intros Hr Hload. apply load_plan_Some in Hload.
  destruct (reachable_plan_sound self fs Hr _ _ Hload) as (Hids & _).
  split; [exact Hids|].
  apply NoDup_alt. intros i j x Hi Hj.
  rewrite list_lookup_fmap in Hi, Hj.
  destruct (steps plan !! i) as [si|] eqn:Ei; [|discriminate].
  destruct (steps plan !! j) as [sj|] eqn:Ej; [|discriminate].
  simpl in Hi, Hj. injection Hi as Hi. injection Hj as Hj.
  rewrite (Hids i si Ei) in Hi. rewrite (Hids j sj Ej) in Hj.
  rewrite <- Hj in Hi.
  apply string_append_inj_r in Hi. apply string_append_inj_r in Hi.
  apply (inj pretty) in Hi. exact Hi.
Qed.

Lemma step_ids_from_task_id_witness :
  (forall i step, steps demo_plan_half !! i = Some step ->
     id step = task_id demo_plan_half +:+ "_step_" +:+ pretty i) /\
  NoDup (id <$> steps demo_plan_half).
Proof.
  apply (step_ids_from_task_id demo demo_fs_half "t1" demo_plan_half).
  - apply reachable_run_calls, reachable_empty.
  - vm_compute. reflexivity.
Defined.

(** ** The methods that only read *)

Lemma get_next_step_reads (self : ProgressTracker) (tid : string) (fs : FS) :
  get_next_step self tid fs
    = (Ok (match fs !! plan_file self tid with
           | Some plan => first_pending (steps plan)
           | None => None
           end), fs).
Proof.
  unfold get_next_step, bind. rewrite load_plan_run.
  destruct (fs !! plan_file self tid); reflexivity.
Qed.

Lemma restore_checkpoint_reads (self : ProgressTracker) (tid : string) (fs : FS) :
  snd (restore_checkpoint self tid fs) = fs.
Proof.
  unfold restore_checkpoint, bind. rewrite load_plan_run.
  destruct (fs !! plan_file self tid) as [plan|]; [|reflexivity].
  destruct (default (JDict ∅) (metadata plan !! "last_checkpoint")); reflexivity.
Qed.

Lemma get_progress_summary_reads (self : ProgressTracker) (tid : string)
    (fs : FS) :
  snd (get_progress_summary self tid fs) = fs.
Proof.
  unfold get_progress_summary, bind, lift. rewrite load_plan_run.
  destruct (fs !! plan_file self tid) as [plan|]; [|reflexivity].
  destruct (PyFloat.int_truediv _ _); [|reflexivity].
  destruct (current_step_text plan); reflexivity.
Qed.

Lemma resume_task_reads (self : ProgressTracker) (tid : string) (fs : FS) :
  snd (resume_task self tid fs) = fs.
Proof.
  unfold resume_task, bind. rewrite load_plan_run.
  destruct (fs !! plan_file self tid) as [plan|]; [|reflexivity].
  rewrite get_next_step_reads.
  pose proof (restore_checkpoint_reads self tid fs) as Hrestore.
  destruct (restore_checkpoint self tid fs) as [[data|e] fs1].
  - cbn [snd] in Hrestore. subst fs1.
    pose proof (get_progress_summary_reads self tid fs) as Hsummary.
    destruct (get_progress_summary self tid fs) as [[d|e] fs2]; exact Hsummary.
  - exact Hrestore.
Qed.

(** ** What [update_step] leaves alone and what it writes *)

(** X5. An [update_step] that returns keeps the plan's [task_id], [title],
    [created_at], [total_steps] and [metadata], stamps [updated_at] with the
    time of the call, and keeps the number of steps and the [id] and
    [description] of every step. *)
Theorem update_step_frame (self : ProgressTracker) (fs fs' : FS)
    (now tid : string) (i : Z) (st : string) (out : option dict)
    (err : option string) (plan plan' : TaskPlan) :
  load_plan self tid fs = (Ok (Some plan), fs) ->
  update_step self now tid i st out err fs = (Ok plan', fs') ->
  task_id plan' = task_id plan /\ title plan' = title plan /\
  created_at plan' = created_at plan /\ total_steps plan' = total_steps plan /\
  metadata plan' = metadata plan /\ updated_at plan' = now /\
  Forall2 (fun old new => id new = id old /\ description new = description old)
    (steps plan) (steps plan').
Proof.
  intros Hload Hrun. apply load_plan_Some in Hload.
  destruct (update_step_Ok_inv self fs fs' now tid i st out err plan plan'
              Hload Hrun) as (slot & step & Hslot & Hstep & -> & _).
  cbn [task_id title created_at total_steps metadata updated_at steps plan_after].
  repeat (split; [reflexivity|]).
  apply Forall2_same_length_lookup. split; [symmetry; apply length_insert|].
  intros n old new Hold Hnew.
  destruct (decide (n = slot)) as [->|Hne].
  - destruct (norm_index_Some _ _ _ Hslot) as (Hlt & _).
    rewrite list_lookup_insert_eq in Hnew by exact Hlt.
    injection Hnew as <-. rewrite Hstep in Hold. injection Hold as <-.
    apply id_after.
  - rewrite list_lookup_insert_ne in Hnew by congruence.
    rewrite Hold in Hnew. injection Hnew as <-. auto.
Qed.

Lemma update_step_frame_witness :
  task_id demo_plan_half = task_id demo_plan_started /\
  title demo_plan_half = title demo_plan_started /\
  created_at demo_plan_half = created_at demo_plan_started /\
  total_steps demo_plan_half = total_steps demo_plan_started /\
  metadata demo_plan_half = metadata demo_plan_started /\
  updated_at demo_plan_half = "2026-01-01T09:20:00" /\
  Forall2 (fun old new => id new = id old /\ description new = description old)
    (steps demo_plan_started) (steps demo_plan_half).
Proof.
  apply (update_step_frame demo demo_fs_started demo_fs_half
           "2026-01-01T09:20:00" "t1" 0 "completed"
           (Some {[ "ok" := JBool true ]}) None).
  - vm_compute. reflexivity.
  - vm_compute. reflexivity.
Defined.

(** X6. An [update_step] that returns adds one to [completed_steps] when
    the status is ["completed"] and leaves it alone for every other status,
    ["failed"] included; it moves [current_step_index] to the index it was
    given, as given, when the status is ["in_progress"], and leaves it
    alone otherwise. *)
Theorem update_step_counters (self : ProgressTracker) (fs fs' : FS)
    (now tid : string) (i : Z) (st : string) (out : option dict)
    (err : option string) (plan plan' : TaskPlan) :
  load_plan self tid fs = (Ok (Some plan), fs) ->
  update_step self now tid i st out err fs = (Ok plan', fs') ->
  (st = "completed" -> completed_steps plan' = completed_steps plan + 1) /\
  (st <> "completed" -> completed_steps plan' = completed_steps plan) /\
  (st = "in_progress" -> current_step_index plan' = i) /\
  (st <> "in_progress" -> current_step_index plan' = current_step_index plan).
Proof.
  intros Hload Hrun. apply load_plan_Some in Hload.
  destruct (update_step_Ok_inv self fs fs' now tid i st out err plan plan'
              Hload Hrun) as (slot & step & Hslot & Hstep & -> & _).
  cbn [completed_steps current_step_index plan_after].
  rewrite count_after_bounds.
  split; [intros ->; reflexivity|].
  split; [intros Hne; apply String.eqb_neq in Hne; rewrite Hne; lia|].
  split; [intros ->; reflexivity|].
  intros Hne. apply String.eqb_neq in Hne. rewrite Hne. reflexivity.
Qed.

Lemma update_step_counters_witness :
  ("failed" = "completed" ->
   completed_steps
     (plan_after "2026-01-01T09:30:00" (-1) "failed" None (Some "timeout")
        demo_plan_half 1 (new_step "t1" 1 "step B"))
   = completed_steps demo_plan_half + 1) /\
  ("failed" <> "completed" ->
   completed_steps
     (plan_after "2026-01-01T09:30:00" (-1) "failed" None (Some "timeout")
        demo_plan_half 1 (new_step "t1" 1 "step B"))
   = completed_steps demo_plan_half) /\
  ("failed" = "in_progress" ->
   current_step_index
     (plan_after "2026-01-01T09:30:00" (-1) "failed" None (Some "timeout")
        demo_plan_half 1 (new_step "t1" 1 "step B"))
   = -1) /\
  ("failed" <> "in_progress" ->
   current_step_index
     (plan_after "2026-01-01T09:30:00" (-1) "failed" None (Some "timeout")
        demo_plan_half 1 (new_step "t1" 1 "step B"))
   = current_step_index demo_plan_half).
Proof.
  apply (update_step_counters demo demo_fs_half
           (snd (update_step demo "2026-01-01T09:30:00" "t1" (-1) "failed" None
                   (Some "timeout") demo_fs_half))
           "2026-01-01T09:30:00" "t1" (-1) "failed" None (Some "timeout")).
  - vm_compute. reflexivity.
  - vm_compute. reflexivity.
Defined.

Lemma error_after (now st : string) (out : option dict) (err : option string)
    (step : TaskStep) :
  error (step_after now st out err step)
    = if String.eqb st "failed" then err else error step.
Proof.
  unfold step_after, apply_status.
  destruct (String.eqb st "in_progress") eqn:Ein.
  - apply String.eqb_eq in Ein. subst st. simpl.
    destruct (opt_dict_truthy out), (status_is step "pending"); reflexivity.
  - simpl. destruct (String.eqb st "completed") eqn:Ec.
    + apply String.eqb_eq in Ec. subst st.
      destruct (opt_dict_truthy out); reflexivity.
    + destruct (opt_dict_truthy out), (String.eqb st "failed"); reflexivity.
Qed.

Lemma output_after (now st : string) (out : option dict) (err : option string)
    (step : TaskStep) :
  output (step_after now st out err step)
    = if opt_dict_truthy out then out else output step.
Proof.
  unfold step_after, apply_status.
  destruct (opt_dict_truthy out),
    (String.eqb st "in_progress" && status_is step "pending"),
    (String.eqb st "completed"), (String.eqb st "failed"); reflexivity.
Qed.

Lemma opt_dict_truthy_false (out : option dict) :
  opt_dict_truthy out = false <-> out = None \/ out = Some ∅.
Proof.
  destruct out as [d|]; simpl; [|tauto]. unfold dict_truthy.
  rewrite negb_false_iff, Nat.eqb_eq, map_size_empty_iff.
  split; [intros ->; auto|]. intros [H|H]; congruence.
Qed.

(** X7. What an [update_step] that returns writes into the addressed step
    besides its status: [error] becomes the [error] argument when the
    status is ["failed"] (so a failure reported without one erases an
    earlier error) and is left alone for every other status, whatever the
    argument; [output] becomes the [output] argument when that is a
    non-empty dict and is left alone when it is [None] or [{}];
    [completed_at] is left alone unless the status is ["completed"] or
    ["failed"]. *)
Theorem update_step_payload (self : ProgressTracker) (fs fs' : FS)
    (now tid : string) (i : Z) (st : string) (out : option dict)
    (err : option string) (plan plan' : TaskPlan) :
  load_plan self tid fs = (Ok (Some plan), fs) ->
  update_step self now tid i st out err fs = (Ok plan', fs') ->
  exists slot step step',
    norm_index (length (steps plan)) i = Some slot /\
    steps plan !! slot = Some step /\
    steps plan' !! slot = Some step' /\
    (st = "failed" -> error step' = err) /\
    (st <> "failed" -> error step' = error step) /\
    (forall d, out = Some d -> d <> ∅ -> output step' = Some d) /\
    (out = None \/ out = Some ∅ -> output step' = output step) /\
    (st <> "completed" -> st <> "failed" ->
     completed_at step' = completed_at step).
Proof.
  intros Hload Hrun. apply load_plan_Some in Hload.
  destruct (update_step_Ok_inv self fs fs' now tid i st out err plan plan'
              Hload Hrun) as (slot & step & Hslot & Hstep & -> & _).
  destruct (norm_index_Some _ _ _ Hslot) as (Hlt & _).
  exists slot, step, (step_after now st out err step).
  split; [exact Hslot|]. split; [exact Hstep|].
  cbn [steps plan_after].
  split; [apply list_lookup_insert_eq; exact Hlt|].
  rewrite error_after, output_after, completed_at_after.
  split; [intros ->; reflexivity|].
  split; [intros Hne; apply String.eqb_neq in Hne; rewrite Hne; reflexivity|].
  split.
  { intros d -> Hd.
    destruct (opt_dict_truthy (Some d)) eqn:E; [reflexivity|].
    apply opt_dict_truthy_false in E. destruct E as [E|E]; congruence. }
  split.
  { intros Hfalsy. apply opt_dict_truthy_false in Hfalsy.
    rewrite Hfalsy. reflexivity. }
  intros Hc Hf. apply String.eqb_neq in Hc, Hf. rewrite Hc, Hf.
  destruct (String.eqb st "in_progress" && status_is step "pending");
    reflexivity.
Qed.

Lemma update_step_payload_witness :
  exists slot step step',
    norm_index (length (steps demo_plan_half)) 0 = Some slot /\
    steps demo_plan_half !! slot = Some step /\
    steps
      (plan_after "2026-01-01T09:30:00" 0 "failed" (Some ∅) None
         demo_plan_half 0
         (step_after "2026-01-01T09:20:00" "completed"
            (Some {[ "ok" := JBool true ]}) None
            (step_after "2026-01-01T09:05:00" "in_progress" None None
               (new_step "t1" 0 "step A")))) !! slot = Some step' /\
    error step' = None /\
    output step' = Some {[ "ok" := JBool true ]}.
Proof.
  destruct (update_step_payload demo demo_fs_half
              (snd (update_step demo "2026-01-01T09:30:00" "t1" 0 "failed"
                      (Some ∅) None demo_fs_half))
              "2026-01-01T09:30:00" "t1" 0 "failed" (Some ∅) None
              demo_plan_half
              (plan_after "2026-01-01T09:30:00" 0 "failed" (Some ∅) None
                 demo_plan_half 0
                 (step_after "2026-01-01T09:20:00" "completed"
                    (Some {[ "ok" := JBool true ]}) None
                    (step_after "2026-01-01T09:05:00" "in_progress" None None
                       (new_step "t1" 0 "step A")))))
    as (slot & step & step' & Hslot & Hstep & Hstep' & Herr & _ & _ & Hout & _).
  - vm_compute. reflexivity.
  - vm_compute. reflexivity.
  - exists slot, step, step'.
    split; [exact Hslot|]. split; [exact Hstep|]. split; [exact Hstep'|].
    split; [apply Herr; reflexivity|].
    rewrite Hout by (right; reflexivity).
    vm_compute in Hslot. injection Hslot as <-.
    vm_compute in Hstep. injection Hstep as <-. reflexivity.
Defined.

(** ** More on checkpoints *)





(** ** More on the summary *)

Lemma summary_of_more_lookups (tid : string) (plan : TaskPlan) (q : spec_float)
    (text : string) :
  summary_of tid plan q text !! "task_id" = Some (JStr tid) /\
  summary_of tid plan q text !! "title" = Some (JStr (title plan)) /\
  summary_of tid plan q text !! "current_step" = Some (JStr text) /\
  summary_of tid plan q text !! "steps"
    = Some (JList (map step_entry (steps plan))).
Proof.
  unfold summary_of. cbn [list_to_map foldr uncurry fst snd].
  repeat split;
    repeat (rewrite lookup_insert_ne by discriminate);
    apply lookup_insert_eq.
Qed.

(** X11. On a reachable storage, a summary that [get_progress_summary]
    returns for a stored plan is that of a plan with steps, and its
    ["current_step"] is the description of the step [current_step_index]
    addresses, never the ["Complete"] fallback; it carries the [task_id]
    asked for, the plan's title, and one entry per step in order. *)
Theorem summary_current_step (self : ProgressTracker) (fs fs' : FS)
    (tid : string) (plan : TaskPlan) (d : dict) :
  reachable self fs ->
  load_plan self tid fs = (Ok (Some plan), fs) ->
  get_progress_summary self tid fs = (Ok d, fs') ->
  steps plan <> [] /\
  exists slot step,
    norm_index (length (steps plan)) (current_step_index plan) = Some slot /\
    steps plan !! slot = Some step /\
    d !! "current_step" = Some (JStr (description step)) /\
    d !! "task_id" = Some (JStr tid) /\
    d !! "title" = Some (JStr (title plan)) /\
    d !! "steps" = Some (JList (map step_entry (steps plan))).
Proof.
  intros Hr Hload Hrun. apply load_plan_Some in Hload.
  destruct (reachable_store_ok self fs Hr _ _ Hload) as (_ & Htot & Hlow).
  destruct (reachable_plan_sound self fs Hr _ _ Hload) as (_ & _ & Hhigh).
  destruct (PyFloat.int_truediv (completed_steps plan) (total_steps plan))
    as [q|e] eqn:Hq;
    [|rewrite (summary_division_raises self fs tid plan e Hload Hq) in Hrun;
      discriminate Hrun].
  assert (Hne : steps plan <> []).
  { intros Hnil. rewrite Htot, Hnil in Hq. simpl in Hq. discriminate Hq. }
  specialize (Hhigh Hne). split; [exact Hne|].
  destruct (norm_index_is_Some (length (steps plan)) (current_step_index plan))
    as [slot Hslot]; [lia|].
  destruct (norm_index_Some _ _ _ Hslot) as (Hlt & _).
  destruct (lookup_lt_is_Some_2 _ _ Hlt) as [step Hstep].
  assert (Htext : current_step_text plan = Ok (description step)).
  { unfold current_step_text, list_getitem, list_locate.
    apply Z.ltb_lt in Hhigh. rewrite Hhigh, Hslot, Hstep. reflexivity. }
  rewrite (summary_run self fs tid plan q _ Hload Hq Htext) in Hrun.
  injection Hrun as <- _.
  exists slot, step. split; [exact Hslot|]. split; [exact Hstep|].
  destruct (summary_of_more_lookups tid plan q (description step))
    as (-> & -> & -> & ->).
  auto.
Qed.

Lemma summary_current_step_witness :
  steps demo_plan_half <> [] /\
  exists slot step,
    norm_index (length (steps demo_plan_half))
      (current_step_index demo_plan_half) = Some slot /\
    steps demo_plan_half !! slot = Some step /\
    summary_of "t1" demo_plan_half (S754_finite false 4503599627370496 (-53))
      "step A" !! "current_step" = Some (JStr (description step)) /\
    summary_of "t1" demo_plan_half (S754_finite false 4503599627370496 (-53))
      "step A" !! "task_id" = Some (JStr "t1") /\
    summary_of "t1" demo_plan_half (S754_finite false 4503599627370496 (-53))
      "step A" !! "title" = Some (JStr (title demo_plan_half)) /\
    summary_of "t1" demo_plan_half (S754_finite false 4503599627370496 (-53))
      "step A" !! "steps"
      = Some (JList (map step_entry (steps demo_plan_half))).
Proof.
  apply (summary_current_step demo demo_fs_half demo_fs_half "t1").
  - apply reachable_run_calls, reachable_empty.
  - vm_compute. reflexivity.
  - vm_compute. reflexivity.
Defined.

(** ** Disciplined use *)

Lemma count_completed_le (l : list TaskStep) :
  0 <= count_completed l <= Z.of_nat (length l).
Proof.
  induction l as [|x l IH]; [unfold count_completed; simpl; lia|].
  rewrite count_completed_cons. simpl length.
  destruct (status_is x "completed"); lia.
Qed.

Lemma count_completed_all (l : list TaskStep) :
  count_completed l = Z.of_nat (length l) <->
  forall s, s ∈ l -> status s = "completed".
Proof.
  induction l as [|x l IH].
  - split; [|reflexivity]. intros _ s Hs. apply elem_of_nil in Hs. contradiction.
  - rewrite count_completed_cons. simpl length.
    pose proof (count_completed_le l) as Hle.
    destruct (status_is x "completed") eqn:Ex.
    + apply String.eqb_eq in Ex. split.
      * intros H s Hs. apply elem_of_cons in Hs as [->|Hs]; [exact Ex|].
        apply IH; [lia|exact Hs].
      * intros H. assert (count_completed l = Z.of_nat (length l)) as ->; [|lia].
        apply IH. intros s Hs. apply H. right. exact Hs.
    + apply String.eqb_neq in Ex. split; [lia|].
      intros H. exfalso. apply Ex. apply H. left.
Qed.

(** X12. As long as no [update_step] addresses a step that is already
    ["completed"], the counter of a stored plan lies between 0 and
    [total_steps], it equals [total_steps] exactly when every step has
    status ["completed"], and it is below [total_steps] whenever
    [get_next_step] returns a step. *)
Theorem disciplined_complete (self : ProgressTracker) (fs : FS) (tid : string)
    (plan : TaskPlan) :
  disciplined self fs ->
  load_plan self tid fs = (Ok (Some plan), fs) ->
  0 <= completed_steps plan <= total_steps plan /\
  (completed_steps plan = total_steps plan <->
   forall s, s ∈ steps plan -> status s = "completed") /\
  (forall step, get_next_step self tid fs = (Ok (Some step), fs) ->
     completed_steps plan < total_steps plan).
Proof.
  intros Hd Hload. apply load_plan_Some in Hload.
  pose proof (disciplined_reachable self fs Hd) as Hr.
  destruct (reachable_store_ok self fs Hr _ _ Hload) as (_ & Htot & _).
  rewrite (disciplined_counts self fs Hd _ _ Hload), Htot.
  pose proof (count_completed_le (steps plan)) as Hle.
  split; [exact Hle|]. split; [apply count_completed_all|].
  intros step Hnext. rewrite get_next_step_reads, Hload in Hnext.
  injection Hnext as Hnext.
  apply first_pending_Some in Hnext as (n & Hn & Hp & _).
  destruct (decide (count_completed (steps plan) = Z.of_nat (length (steps plan))))
    as [Heq|Hne]; [|lia].
  exfalso. apply count_completed_all with (s := step) in Heq.
  - rewrite Hp in Heq. discriminate Heq.
  - apply list_elem_of_lookup. eauto.
Qed.

Lemma demo_fs_half_disciplined : disciplined demo demo_fs_half.
Proof.
  change demo_fs_half
    with (run_call demo demo_finish
            (run_call demo demo_start (run_call demo demo_create ∅))).
  apply disciplined_call; [apply disciplined_call; [apply disciplined_call|]|].
  - apply disciplined_empty.
  - exact I.
  - intros plan slot step Hp Hs Hst.
    vm_compute in Hp. injection Hp as <-.
    vm_compute in Hs. injection Hs as <-.
    vm_compute in Hst. injection Hst as <-. discriminate.
  - intros plan slot step Hp Hs Hst.
    vm_compute in Hp. injection Hp as <-.
    vm_compute in Hs. injection Hs as <-.
    vm_compute in Hst. injection Hst as <-. discriminate.
Qed.

Lemma disciplined_complete_witness :
  0 <= completed_steps demo_plan_half <= total_steps demo_plan_half /\
  (completed_steps demo_plan_half = total_steps demo_plan_half <->
   forall s, s ∈ steps demo_plan_half -> status s = "completed") /\
  (forall step,
     get_next_step demo "t1" demo_fs_half = (Ok (Some step), demo_fs_half) ->
     completed_steps demo_plan_half < total_steps demo_plan_half).
Proof.
  apply (disciplined_complete demo demo_fs_half "t1" demo_plan_half).
  - apply demo_fs_half_disciplined.
  - vm_compute. reflexivity.
Defined.

(** ** Working through a plan *)







(** ** Resuming a task *)

(** X14. [resume_task] on a reachable storage: it returns [None] when no
    plan is stored under [task_id]; it raises what [restore_checkpoint]
    raises; when [restore_checkpoint] returns, it raises
    [ZeroDivisionError] for a plan without steps, and for a plan with
    steps and a quotient [completed_steps / total_steps] that is a float
    it returns the stored plan, the first pending step, the checkpoint
    data and the progress summary. *)
Theorem resume_task_outcomes (self : ProgressTracker) (fs : FS) (tid : string) :
  reachable self fs ->
  (load_plan self tid fs = (Ok None, fs) ->
   resume_task self tid fs = (Ok None, fs)) /\
  (forall plan, load_plan self tid fs = (Ok (Some plan), fs) ->
     (forall e, restore_checkpoint self tid fs = (Raise e, fs) ->
        resume_task self tid fs = (Raise e, fs)) /\
     (forall data, restore_checkpoint self tid fs = (Ok data, fs) ->
        (total_steps plan = 0 ->
         resume_task self tid fs = (Raise ZeroDivisionError, fs)) /\
        (forall q,
           PyFloat.int_truediv (completed_steps plan) (total_steps plan) = Ok q ->
           exists r,
             resume_task self tid fs = (Ok (Some r), fs) /\
             resumed_plan r = plan /\
             resumed_next_step r = first_pending (steps plan) /\
             resumed_checkpoint_data r = data /\
             get_progress_summary self tid fs = (Ok (resumed_summary r), fs)))).
Proof.
  intros Hr. split.
  - intros Hload. apply load_plan_None in Hload.
    unfold resume_task, bind. rewrite load_plan_run, Hload. reflexivity.
  - intros plan Hload. apply load_plan_Some in Hload.
    destruct (reachable_store_ok self fs Hr _ _ Hload) as (_ & _ & Hcur).
    split.
    + intros e Hrestore. unfold resume_task, bind.
      rewrite load_plan_run, Hload, get_next_step_reads, Hrestore. reflexivity.
    + intros data Hrestore. split.
      * intros Hzero. unfold resume_task, bind.
        rewrite load_plan_run, Hload, get_next_step_reads, Hrestore.
        rewrite (summary_division_raises self fs tid plan ZeroDivisionError Hload);
          [reflexivity|].
        rewrite Hzero. apply int_truediv_zero.
      * intros q Hq.
        destruct (current_step_text_Ok plan Hcur) as [text Htext].
        pose proof (summary_run self fs tid plan q text Hload Hq Htext) as Hsum.
        eexists. split.
        { unfold resume_task, bind.
          rewrite load_plan_run, Hload, get_next_step_reads, Hload, Hrestore, Hsum.
          reflexivity. }
        cbn [resumed_plan resumed_next_step resumed_checkpoint_data
             resumed_summary].
        auto.
Qed.

Lemma resume_task_outcomes_witness :
  resume_task demo "missing" demo_fs = (Ok None, demo_fs) /\
  resume_task demo "idle" empty_fs = (Raise ZeroDivisionError, empty_fs) /\
  exists r,
    resume_task demo "t1" demo_fs_half = (Ok (Some r), demo_fs_half) /\
    resumed_plan r = demo_plan_half /\
    resumed_next_step r = first_pending (steps demo_plan_half) /\
    resumed_checkpoint_data r = JNull.
Proof.
  assert (Hdemo : reachable demo demo_fs)
    by apply reachable_run_calls, reachable_empty.
  assert (Hempty : reachable demo empty_fs)
    by apply reachable_run_calls, reachable_empty.
  assert (Hhalf : reachable demo demo_fs_half)
    by apply reachable_run_calls, reachable_empty.
  destruct (resume_task_outcomes demo demo_fs "missing" Hdemo) as [Hnone _].
  destruct (resume_task_outcomes demo empty_fs "idle" Hempty) as [_ Hidle].
  destruct (resume_task_outcomes demo demo_fs_half "t1" Hhalf) as [_ Hgood].
  split; [apply Hnone; vm_compute; reflexivity|].
  split.
  { destruct (Hidle empty_plan) as [_ Hreturn]; [vm_compute; reflexivity|].
    destruct (Hreturn JNull) as [Hzero _]; [vm_compute; reflexivity|].
    apply Hzero. reflexivity. }
  destruct (Hgood demo_plan_half) as [_ Hreturn]; [vm_compute; reflexivity|].
  destruct (Hreturn JNull) as [_ Hsummary]; [vm_compute; reflexivity|].
  destruct (Hsummary (S754_finite false 4503599627370496 (-53)))
    as (r & Hrun & Hplan & Hnext & Hdata & _); [vm_compute; reflexivity|].
  exists r. auto.
Defined.

(** * The tracker over Python payloads and files that can fail *)

(** ** What JSON carries *)

Lemma map_fold_andb {A : Type} (P : A -> bool) (d : gmap string A) :
  map_fold (fun _ v acc => P v && acc) true d = true <->
  map_Forall (fun _ v => P v = true) d.
Proof.
  induction d as [|k v d Hk IH] using map_ind.
  - rewrite map_fold_empty. split; [intros _; apply map_Forall_empty | done].
  - rewrite map_fold_insert_L;
      [|intros; rewrite !andb_assoc, (andb_comm (P z1)); done|done].
    rewrite map_Forall_insert by done. rewrite andb_true_iff, IH. done.
Qed.

Lemma forallb_Forall_true {A : Type} (P : A -> bool) (l : list A) :
  forallb P l = true <-> Forall (fun v => P v = true) l.
Proof.
  induction l as [|v l IH]; simpl.
  - split; [constructor | done].
  - rewrite andb_true_iff, Forall_cons, IH. done.
Qed.

Lemma forallb_insert {A : Type} (P : A -> bool) (l : list A) (n : nat) (x : A) :
  (n < length l)%nat -> forallb P l = true ->
  forallb P (<[n := x]> l) = P x.
Proof.
  revert n. induction l as [|v l IH]; intros n Hn H; simpl in *; [lia|].
  apply andb_true_iff in H as [Hv Hl].
  destruct n as [|n]; simpl.
  - rewrite Hl. apply andb_true_r.
  - rewrite Hv. simpl. apply IH; [lia|exact Hl].
Qed.

Lemma val_size_elem (l : list Wire.PyVal) (v : Wire.PyVal) :
  v ∈ l ->
  (Wire.val_size v <= foldr (fun v acc => Wire.val_size v + acc) O l)%nat.
Proof. induction 1; simpl; lia. Qed.

Lemma val_size_lookup (d : Wire.pydict) (k : string) (v : Wire.PyVal) :
  d !! k = Some v ->
  (Wire.val_size v <= map_fold (fun _ v acc => Wire.val_size v + acc) O d)%nat.
Proof.
  intros Hk. rewrite (map_fold_delete_L _ _ k v d); [lia | intros; lia | done].
Qed.

(** Induction over a payload, through the lists, tuples and dicts in it. *)
Lemma PyVal_nested_ind (P : Wire.PyVal -> Prop) :
  P Wire.PNone ->
  (forall b, P (Wire.PBool b)) ->
  (forall z, P (Wire.PInt z)) ->
  (forall f, P (Wire.PFloat f)) ->
  (forall s, P (Wire.PStr s)) ->
  (forall l, Forall P l -> P (Wire.PList l)) ->
  (forall l, Forall P l -> P (Wire.PTuple l)) ->
  (forall d, map_Forall (fun _ v => P v) d -> P (Wire.PDict d)) ->
  (forall r, P (Wire.PObject r)) ->
  (forall r j, P (Wire.POther r j)) ->
  forall v, P v.
Proof.
  intros HN HB HI HF HS HL HT HD HO HX v.
  remember (Wire.val_size v) as n eqn:Hn. revert v Hn.
  induction n as [n IH] using lt_wf_ind. intros v ->.
  destruct v as [| | | | |l|l|d| |]; auto.
  - apply HL, Forall_forall. intros v Hv.
    apply (IH (Wire.val_size v)); [|done].
    pose proof (val_size_elem l v Hv). simpl. lia.
  - apply HT, Forall_forall. intros v Hv.
    apply (IH (Wire.val_size v)); [|done].
    pose proof (val_size_elem l v Hv). simpl. lia.
  - apply HD. intros k v Hk.
    apply (IH (Wire.val_size v)); [|done].
    pose proof (val_size_lookup d k v Hk). simpl. lia.
Qed.

Lemma json_size_elem (l : list JSON) (j : JSON) :
  j ∈ l ->
  (Wire.json_size j <= foldr (fun j acc => Wire.json_size j + acc) O l)%nat.
Proof. induction 1; simpl; lia. Qed.

Lemma json_size_lookup (d : dict) (k : string) (j : JSON) :
  d !! k = Some j ->
  (Wire.json_size j <= map_fold (fun _ j acc => Wire.json_size j + acc) O d)%nat.
Proof.
  intros Hk. rewrite (map_fold_delete_L _ _ k j d); [lia | intros; lia | done].
Qed.

Lemma JSON_nested_ind (P : JSON -> Prop) :
  P JNull ->
  (forall b, P (JBool b)) ->
  (forall z, P (JInt z)) ->
  (forall f, P (JFloat f)) ->
  (forall s, P (JStr s)) ->
  (forall l, Forall P l -> P (JList l)) ->
  (forall d, map_Forall (fun _ j => P j) d -> P (JDict d)) ->
  forall j, P j.
Proof.
  intros HN HB HI HF HS HL HD j.
  remember (Wire.json_size j) as n eqn:Hn. revert j Hn.
  induction n as [n IH] using lt_wf_ind. intros j ->.
  destruct j as [| | | | |l|d]; auto.
  - apply HL, Forall_forall. intros j Hj.
    apply (IH (Wire.json_size j)); [|done].
    pose proof (json_size_elem l j Hj). simpl. lia.
  - apply HD. intros k j Hk.
    apply (IH (Wire.json_size j)); [|done].
    pose proof (json_size_lookup d k j Hk). simpl. lia.
Qed.

(** A value JSON carries unchanged comes back from the file as it went. *)
Lemma of_json_to_json (v : Wire.PyVal) :
  Wire.clean v = true -> Wire.of_json (Wire.to_json v) = v.
Proof.
  induction v as [| | | | |l IH|l IH|d IH| |] using PyVal_nested_ind;
    simpl; try done.
  - intros Hc. f_equal. apply forallb_Forall_true in Hc.
    induction l as [|v l IHl]; simpl; [done|].
    inversion IH; inversion Hc; subst. f_equal; auto.
  - intros Hc. apply map_fold_andb in Hc. f_equal.
    apply map_eq. intros k. rewrite !lookup_fmap.
    destruct (d !! k) as [v|] eqn:Hk; simpl; [|done].
    f_equal. apply (IH k v Hk), (Hc k v Hk).
Qed.

(** Writing again what was read gives the same document. *)
Lemma to_json_of_json (j : JSON) : Wire.to_json (Wire.of_json j) = j.
Proof.
  induction j as [| | | | |l IH|d IH] using JSON_nested_ind; simpl; try done.
  - f_equal. induction l as [|j l IHl]; simpl; [done|].
    inversion IH; subst. f_equal; auto.
  - f_equal. apply map_eq. intros k. rewrite !lookup_fmap.
    destruct (d !! k) as [j|] eqn:Hk; simpl; [|done].
    f_equal. apply (IH k j Hk).
Qed.

(** What [json.dump] accepts, [json.load] accepts, and the other way. *)
Lemma dumpable_loadable (v : Wire.PyVal) :
  Wire.dumpable v = true -> Wire.loadable (Wire.to_json v) = true.
Proof.
  induction v as [| | | | |l IH|l IH|d IH| |] using PyVal_nested_ind;
    simpl; try done.
  - intros Hc. apply forallb_Forall_true in Hc. apply forallb_Forall_true.
    induction l as [|v l IHl]; simpl; [constructor|].
    inversion IH; inversion Hc; subst. constructor; auto.
  - intros Hc. apply forallb_Forall_true in Hc. apply forallb_Forall_true.
    induction l as [|v l IHl]; simpl; [constructor|].
    inversion IH; inversion Hc; subst. constructor; auto.
  - intros Hc. apply map_fold_andb in Hc. apply map_fold_andb.
    intros k j. rewrite lookup_fmap.
    destruct (d !! k) as [v|] eqn:Hk; simpl; [|done].
    intros [= <-]. apply (IH k v Hk), (Hc k v Hk).
Qed.

Lemma loadable_dumpable (j : JSON) :
  Wire.loadable j = true -> Wire.dumpable (Wire.of_json j) = true.
Proof.
  induction j as [| | | | |l IH|d IH] using JSON_nested_ind; simpl; try done.
  - intros Hc. apply forallb_Forall_true in Hc. apply forallb_Forall_true.
    induction l as [|j l IHl]; simpl; [constructor|].
    inversion IH; inversion Hc; subst. constructor; auto.
  - intros Hc. apply map_fold_andb in Hc. apply map_fold_andb.
    intros k v. rewrite lookup_fmap.
    destruct (d !! k) as [j|] eqn:Hk; simpl; [|done].
    intros [= <-]. apply (IH k j Hk), (Hc k j Hk).
Qed.

Lemma dict_of_json_to_json (d : Wire.pydict) :
  Wire.clean (Wire.PDict d) = true ->
  Wire.dict_of_json (Wire.dict_to_json d) = d.
Proof.
  intros Hc. apply of_json_to_json in Hc. simpl in Hc.
  injection Hc as Hc. exact Hc.
Qed.

Lemma dict_to_json_of_json (m : dict) :
  Wire.dict_to_json (Wire.dict_of_json m) = m.
Proof.
  pose proof (to_json_of_json (JDict m)) as H. simpl in H.
  injection H as H. exact H.
Qed.

Lemma step_to_doc_of_doc (d : StepDoc) :
  Wire.step_to_doc (Wire.step_of_doc d) = d.
Proof.
  destruct d as [i de st sa ca er [out|]]; unfold Wire.step_to_doc; simpl;
    [rewrite dict_to_json_of_json|]; reflexivity.
Qed.

Lemma plan_to_doc_of_doc (d : PlanDoc) :
  Wire.plan_to_doc (Wire.plan_of_doc d) = d.
Proof.
  destruct d as [tid ttl sts cr up tot co cur meta].
  unfold Wire.plan_to_doc; simpl. rewrite dict_to_json_of_json.
  f_equal. induction sts as [|s sts IH]; simpl; [done|].
  rewrite step_to_doc_of_doc, IH. reflexivity.
Qed.

Lemma plan_dumpable_loadable (p : Wire.TaskPlan) :
  Wire.plan_dumpable p = true -> Wire.doc_loadable (Wire.plan_to_doc p) = true.
Proof.
  unfold Wire.plan_dumpable, Wire.plan_to_doc, Wire.doc_loadable.
  rewrite !andb_true_iff. intros [Hs Hm]. split.
  - clear Hm. induction (Wire.steps p) as [|s sts IH]; simpl in *; [done|].
    apply andb_true_iff in Hs as [Hs Hsts].
    rewrite IH by exact Hsts. rewrite andb_true_r.
    unfold Wire.step_dumpable in Hs. unfold Wire.step_to_doc, Wire.step_loadable.
    destruct (Wire.output s) as [out|]; simpl; [|done].
    apply (dumpable_loadable (Wire.PDict out) Hs).
  - apply (dumpable_loadable (Wire.PDict (Wire.metadata p)) Hm).
Qed.

Lemma doc_loadable_dumpable (d : PlanDoc) :
  Wire.doc_loadable d = true -> Wire.plan_dumpable (Wire.plan_of_doc d) = true.
Proof.
  destruct d as [tid ttl sts cr up tot co cur meta].
  unfold Wire.plan_dumpable, Wire.doc_loadable; simpl.
  rewrite !andb_true_iff. intros [Hs Hm]. split.
  - clear Hm. induction sts as [|s sts IH]; simpl in *; [done|].
    apply andb_true_iff in Hs as [Hs Hsts].
    rewrite IH by exact Hsts. rewrite andb_true_r.
    destruct s as [i de st sa ca er [out|]]; unfold Wire.step_dumpable; simpl;
      [|done].
    apply (loadable_dumpable (JDict out) Hs).
  - apply (loadable_dumpable (JDict meta) Hm).
Qed.

(** ** What each method does to the disk *)

Lemma wire_load_plan_disk (self : ProgressTracker) (tid : string)
    (disk : Wire.Disk) :
  snd (Wire.load_plan self tid disk) = disk.
Proof.
  unfold Wire.load_plan.
  destruct (disk !! plan_file self tid) as [[d|]|]; [|reflexivity..].
  destruct (Wire.doc_loadable d); reflexivity.
Qed.

Lemma wire_load_plan_Some (self : ProgressTracker) (tid : string)
    (disk disk' : Wire.Disk) (plan : Wire.TaskPlan) :
  Wire.load_plan self tid disk = (Wire.Returns (Some plan), disk') ->
  exists d, disk !! plan_file self tid = Some (Wire.Document d) /\
            Wire.doc_loadable d = true /\ plan = Wire.plan_of_doc d /\
            disk' = disk.
Proof.
  unfold Wire.load_plan.
  destruct (disk !! plan_file self tid) as [[d|]|]; [|discriminate..].
  destruct (Wire.doc_loadable d) eqn:Hd; [|discriminate].
  intros [= <- <-]. exists d. done.
Qed.

Lemma wire_load_plan_Document (self : ProgressTracker) (tid : string)
    (disk : Wire.Disk) (d : PlanDoc) :
  disk !! plan_file self tid = Some (Wire.Document d) ->
  Wire.doc_loadable d = true ->
  Wire.load_plan self tid disk = (Wire.Returns (Some (Wire.plan_of_doc d)), disk).
Proof. intros Hd Hl. unfold Wire.load_plan. rewrite Hd, Hl. reflexivity. Qed.

Lemma wire_load_plan_Partial (self : ProgressTracker) (tid : string)
    (disk : Wire.Disk) :
  disk !! plan_file self tid = Some Wire.Partial ->
  Wire.load_plan self tid disk = (Wire.Raises Wire.DecodeError, disk).
Proof. intros Hd. unfold Wire.load_plan. rewrite Hd. reflexivity. Qed.

Lemma wire_task_id_of_doc (p : Wire.TaskPlan) :
  Wire.task_id (Wire.plan_of_doc (Wire.plan_to_doc p)) = Wire.task_id p.
Proof. reflexivity. Qed.

(** The steps [create_plan] builds have no output to write. *)
Lemma new_steps_dumpable (tid : string) (descs : list string) :
  forallb Wire.step_dumpable (imap (Wire.new_step tid) descs) = true.
Proof.
  apply forallb_Forall_true, Forall_forall. intros s Hs.
  apply elem_of_lookup_imap in Hs as (i & desc & -> & _). reflexivity.
Qed.

Lemma new_steps_of_doc (tid : string) (descs : list string) :
  map Wire.step_of_doc (map Wire.step_to_doc (imap (Wire.new_step tid) descs))
  = imap (Wire.new_step tid) descs.
Proof.
  assert (H : Forall (fun s => Wire.output s = None)
                (imap (Wire.new_step tid) descs)).
  { apply Forall_forall. intros s Hs.
    apply elem_of_lookup_imap in Hs as (i & desc & -> & _). reflexivity. }
  induction H as [|s l Hs _ IH]; simpl; [done|].
  rewrite IH. f_equal. destruct s as [i de st sa ca er out]; simpl in *.
  subst out. reflexivity.
Qed.

(** [apply_status] and the two writes after it leave a step's output alone
    unless the caller hands over a non-empty one. *)
Lemma wire_step_dumpable_after (now st : string) (out : option Wire.pydict)
    (err : option string) (step : Wire.TaskStep) (c : Z) :
  Wire.step_dumpable step = true ->
  Wire.step_dumpable
    (let step' := Wire.set_status st (fst (Wire.apply_status now st err step c)) in
     if Wire.opt_dict_truthy out then Wire.set_output out step' else step')
  = Wire.dumpable (Wire.PDict (Wire.or_empty out)).
Proof.
  intros Hs.
  assert (Hout : Wire.output
            (Wire.set_status st (fst (Wire.apply_status now st err step c)))
          = Wire.output step).
  { unfold Wire.apply_status.
    destruct (String.eqb st "in_progress" && Wire.status_is step "pending");
      [reflexivity|].
    destruct (String.eqb st "completed"); [reflexivity|].
    destruct (String.eqb st "failed"); reflexivity. }
  cbv zeta. destruct out as [d|]; simpl.
  - destruct (Wire.dict_truthy d) eqn:Hd.
    + reflexivity.
    + unfold Wire.step_dumpable. rewrite Hout. exact Hs.
  - unfold Wire.step_dumpable. rewrite Hout. exact Hs.
Qed.

(** Storing a checkpoint in writable metadata: the write is accepted
    exactly when the checkpoint data is. *)
Lemma dumpable_insert (k : string) (v : Wire.PyVal) (d : Wire.pydict) :
  Wire.dumpable (Wire.PDict d) = true ->
  Wire.dumpable (Wire.PDict (<[k := v]> d)) = Wire.dumpable v.
Proof.
  intros Hd. apply eq_true_iff_eq. cbn [Wire.dumpable] in *.
  rewrite map_fold_andb in *. split.
  - intros H. apply (H k v). apply lookup_insert_eq.
  - intros Hv k' v' Hk'.
    destruct (decide (k' = k)) as [->|Hne].
    + rewrite lookup_insert_eq in Hk'. congruence.
    + rewrite lookup_insert_ne in Hk' by congruence. apply (Hd k' v' Hk').
Qed.

Lemma dumpable_insert_checkpoint (now : string) (data d : Wire.pydict) :
  Wire.dumpable (Wire.PDict d) = true ->
  Wire.dumpable
    (Wire.PDict (<["last_checkpoint" := Wire.checkpoint_entry now data]> d))
  = Wire.dumpable (Wire.PDict data).
Proof.
  intros Hd. rewrite dumpable_insert by exact Hd.
  unfold Wire.checkpoint_entry. apply eq_true_iff_eq.
  change (Wire.dumpable (Wire.PDict ?m))
    with (map_fold (fun _ v acc => Wire.dumpable v && acc) true m) at 1.
  rewrite map_fold_andb. split.
  - intros H. apply (H "data" (Wire.PDict data)).
    rewrite lookup_insert_ne by discriminate. apply lookup_singleton_eq.
  - intros Hv k v Hk.
    destruct (decide (k = "timestamp")) as [->|Hne].
    + rewrite lookup_insert_eq in Hk. injection Hk as <-. reflexivity.
    + rewrite lookup_insert_ne in Hk by congruence.
      apply lookup_singleton_Some in Hk as [_ <-]. exact Hv.
Qed.

(** How a writing call ends on a disk that satisfies the invariant:
    without touching the disk; with the new document in the task's file;
    or with that file left partial, because [json.dump] refused the
    payload the caller handed over or the file system refused the text. *)
Lemma wire_run_call_cases (can_open : string -> bool)
    (can_write : string -> PlanDoc -> bool) (self : ProgressTracker)
    (c : Wire.call) (disk : Wire.Disk) :
  Wire.disk_ok self disk ->
  Wire.plain (Wire.call_task c) = true ->
  (exists f, f <> Wire.EncodeError /\ f <> Wire.WriteError /\
             Wire.run_call can_open can_write self c disk = (Some f, disk)) \/
  (can_open (plan_file self (Wire.call_task c)) = true /\
   Wire.dumpable (Wire.PDict (Wire.call_payload c)) = true /\
   exists plan, Wire.task_id plan = Wire.call_task c /\
     Wire.plan_dumpable plan = true /\
     Wire.run_call can_open can_write self c disk
     = (None, <[plan_file self (Wire.call_task c)
                  := Wire.Document (Wire.plan_to_doc plan)]> disk)) \/
  (can_open (plan_file self (Wire.call_task c)) = true /\
   exists f,
     (f = Wire.EncodeError /\
      Wire.dumpable (Wire.PDict (Wire.call_payload c)) = false \/
      f = Wire.WriteError /\
      Wire.dumpable (Wire.PDict (Wire.call_payload c)) = true) /\
     Wire.run_call can_open can_write self c disk
     = (Some f, <[plan_file self (Wire.call_task c) := Wire.Partial]> disk)).
Proof.
  intros Hok Hplain.
  assert (Hsave : forall plan,
    Wire.task_id plan = Wire.call_task c ->
    Wire.plan_dumpable plan = Wire.dumpable (Wire.PDict (Wire.call_payload c)) ->
    (Wire._save_plan can_open can_write self plan disk
     = (Wire.Raises Wire.OpenError, disk)) \/
    (can_open (plan_file self (Wire.call_task c)) = true /\
     Wire.dumpable (Wire.PDict (Wire.call_payload c)) = true /\
     Wire.plan_dumpable plan = true /\
     Wire._save_plan can_open can_write self plan disk
     = (Wire.Returns tt,
        <[plan_file self (Wire.call_task c)
            := Wire.Document (Wire.plan_to_doc plan)]> disk)) \/
    (can_open (plan_file self (Wire.call_task c)) = true /\
     exists f,
       (f = Wire.EncodeError /\
        Wire.dumpable (Wire.PDict (Wire.call_payload c)) = false \/
        f = Wire.WriteError /\
        Wire.dumpable (Wire.PDict (Wire.call_payload c)) = true) /\
       Wire._save_plan can_open can_write self plan disk
       = (Wire.Raises f,
          <[plan_file self (Wire.call_task c) := Wire.Partial]> disk))).
  { intros plan Htid Hd. unfold Wire._save_plan. rewrite Htid.
    destruct (can_open (plan_file self (Wire.call_task c))) eqn:Hopen.
    - destruct (Wire.plan_dumpable plan) eqn:Hp.
      + destruct (can_write _ _).
        * right; left. done.
        * right; right. split; [done|]. exists Wire.WriteError.
          split; [right; done|reflexivity].
      + right; right. split; [done|]. exists Wire.EncodeError.
        split; [left; done|reflexivity].
    - left. reflexivity. }
  assert (Hend : forall plan r,
    Wire.task_id plan = Wire.call_task c ->
    (r = (Some Wire.OpenError, disk)) \/
    (can_open (plan_file self (Wire.call_task c)) = true /\
     Wire.dumpable (Wire.PDict (Wire.call_payload c)) = true /\
     Wire.plan_dumpable plan = true /\
     r = (None, <[plan_file self (Wire.call_task c)
                    := Wire.Document (Wire.plan_to_doc plan)]> disk)) \/
    (can_open (plan_file self (Wire.call_task c)) = true /\
     exists f,
       (f = Wire.EncodeError /\
        Wire.dumpable (Wire.PDict (Wire.call_payload c)) = false \/
        f = Wire.WriteError /\
        Wire.dumpable (Wire.PDict (Wire.call_payload c)) = true) /\
       r = (Some f,
            <[plan_file self (Wire.call_task c) := Wire.Partial]> disk)) ->
    (exists f, f <> Wire.EncodeError /\ f <> Wire.WriteError /\
               r = (Some f, disk)) \/
    (can_open (plan_file self (Wire.call_task c)) = true /\
     Wire.dumpable (Wire.PDict (Wire.call_payload c)) = true /\
     exists plan, Wire.task_id plan = Wire.call_task c /\
       Wire.plan_dumpable plan = true /\
       r = (None, <[plan_file self (Wire.call_task c)
                      := Wire.Document (Wire.plan_to_doc plan)]> disk)) \/
    (can_open (plan_file self (Wire.call_task c)) = true /\
     exists f,
       (f = Wire.EncodeError /\
        Wire.dumpable (Wire.PDict (Wire.call_payload c)) = false \/
        f = Wire.WriteError /\
        Wire.dumpable (Wire.PDict (Wire.call_payload c)) = true) /\
       r = (Some f,
            <[plan_file self (Wire.call_task c) := Wire.Partial]> disk))).
  { intros plan r Htid [->|[(Ho & Hp & Hpd & ->)|Hpart]].
    - left. exists Wire.OpenError. done.
    - right; left. split; [exact Ho|]. split; [exact Hp|]. exists plan. done.
    - right; right. exact Hpart. }
  assert (Hrun : forall plan T (v : T),
    Wire.task_id plan = Wire.call_task c ->
    Wire.plan_dumpable plan = Wire.dumpable (Wire.PDict (Wire.call_payload c)) ->
    (match Wire._save_plan can_open can_write self plan disk with
     | (Wire.Returns _, dk) => (@None Wire.failure, dk)
     | (Wire.Raises f, dk) => (Some f, dk)
     end = Wire.raised
             match Wire._save_plan can_open can_write self plan disk with
             | (Wire.Returns _, dk) => (Wire.Returns v, dk)
             | (Wire.Raises f, dk) => (Wire.Raises f, dk)
             end) /\
    ((match Wire._save_plan can_open can_write self plan disk with
      | (Wire.Returns _, dk) => (@None Wire.failure, dk)
      | (Wire.Raises f, dk) => (Some f, dk)
      end = (Some Wire.OpenError, disk)) \/
     (can_open (plan_file self (Wire.call_task c)) = true /\
      Wire.dumpable (Wire.PDict (Wire.call_payload c)) = true /\
      Wire.plan_dumpable plan = true /\
      match Wire._save_plan can_open can_write self plan disk with
      | (Wire.Returns _, dk) => (@None Wire.failure, dk)
      | (Wire.Raises f, dk) => (Some f, dk)
      end = (None, <[plan_file self (Wire.call_task c)
                       := Wire.Document (Wire.plan_to_doc plan)]> disk)) \/
     (can_open (plan_file self (Wire.call_task c)) = true /\
      exists f,
        (f = Wire.EncodeError /\
         Wire.dumpable (Wire.PDict (Wire.call_payload c)) = false \/
         f = Wire.WriteError /\
         Wire.dumpable (Wire.PDict (Wire.call_payload c)) = true) /\
        match Wire._save_plan can_open can_write self plan disk with
        | (Wire.Returns _, dk) => (@None Wire.failure, dk)
        | (Wire.Raises f, dk) => (Some f, dk)
        end = (Some f,
               <[plan_file self (Wire.call_task c) := Wire.Partial]> disk)))).
  { intros plan T v Htid Hd.
    destruct (Hsave plan Htid Hd)
      as [Hs|[(Ho & Hp & Hpd & Hs)|(Ho & f & Hf & Hs)]]; rewrite Hs.
    - split; [reflexivity|]. left. reflexivity.
    - split; [reflexivity|]. right; left. done.
    - split; [reflexivity|]. right; right. split; [done|]. exists f. done. }
  destruct c as [now tid ttl descs meta|now tid i st out err|now tid data];
    cbn [Wire.run_call Wire.call_task Wire.call_payload] in *.
  - (* create_plan *)
    unfold Wire.create_plan.
    match goal with
    | |- context [Wire._save_plan can_open can_write self ?p disk] =>
        destruct (Hrun p _ p eq_refl) as [Heq Hcases];
        [unfold Wire.plan_dumpable; cbn [Wire.steps Wire.metadata];
         rewrite new_steps_dumpable; reflexivity|];
        rewrite <- Heq; apply (Hend p); [reflexivity|exact Hcases]
    end.
  - (* update_step *)
    unfold Wire.update_step, Wire.load_plan.
    destruct (disk !! plan_file self tid) as [[d|]|] eqn:Hd.
    + destruct (Wire.doc_loadable d) eqn:Hl.
      * pose proof (doc_loadable_dumpable d Hl) as Hpd.
        pose proof (Hok tid d Hplain Hd) as Htid.
        destruct (list_locate (Wire.steps (Wire.plan_of_doc d)) i)
          as [[slot step]|e] eqn:Hloc.
        -- destruct (Wire.apply_status now st err step
                       (Wire.completed_steps (Wire.plan_of_doc d)))
             as [step' completed] eqn:Happ.
           assert (Hslot : (slot < length (Wire.steps (Wire.plan_of_doc d)))%nat
                           /\ Wire.steps (Wire.plan_of_doc d) !! slot = Some step).
           { unfold list_locate in Hloc.
             destruct (norm_index _ i) as [n|] eqn:Hn; [|discriminate].
             destruct (Wire.steps (Wire.plan_of_doc d) !! n) as [s|] eqn:Hs;
               [|discriminate].
             injection Hloc as <- <-. split; [|exact Hs].
             apply lookup_lt_is_Some. eauto. }
           destruct Hslot as [Hlt Hstep].
           unfold Wire.plan_dumpable in Hpd.
           apply andb_true_iff in Hpd as [Hsteps Hmeta].
           assert (Hstepd : Wire.step_dumpable step = true).
           { apply forallb_Forall_true in Hsteps.
             eapply Forall_lookup_1 in Hsteps; [exact Hsteps|exact Hstep]. }
           pose proof (wire_step_dumpable_after now st out err step
                         (Wire.completed_steps (Wire.plan_of_doc d)) Hstepd) as Hsd.
           rewrite Happ in Hsd. cbv zeta in Hsd. cbn [fst] in Hsd.
           match goal with
           | |- context [Wire._save_plan can_open can_write self ?p disk] =>
               assert (Hp1 : Wire.task_id p = tid)
                 by (destruct (String.eqb st "in_progress"); exact Htid);
               assert (Hp2 : Wire.plan_dumpable p
                             = Wire.dumpable (Wire.PDict (Wire.or_empty out)))
                 by (unfold Wire.plan_dumpable;
                     destruct (String.eqb st "in_progress");
                     cbn [Wire.steps Wire.metadata Wire.set_updated_at
                          Wire.set_steps Wire.set_completed_steps
                          Wire.set_current_step_index];
                     rewrite (forallb_insert _ _ _ _ Hlt Hsteps), Hsd, Hmeta;
                     apply andb_true_r);
               destruct (Hrun p _ p Hp1 Hp2) as [Heq Hcases];
               rewrite <- Heq; apply (Hend p); [exact Hp1|exact Hcases]
           end.
        -- left. exists (Wire.Tracker e). done.
      * left. exists Wire.DecodeError. done.
    + left. exists Wire.DecodeError. done.
    + left. eexists. split; [|split; [|reflexivity]]; discriminate.
  - (* checkpoint *)
    unfold Wire.checkpoint, Wire.load_plan.
    destruct (disk !! plan_file self tid) as [[d|]|] eqn:Hd.
    + destruct (Wire.doc_loadable d) eqn:Hl.
      * pose proof (doc_loadable_dumpable d Hl) as Hpd.
        pose proof (Hok tid d Hplain Hd) as Htid.
        unfold Wire.plan_dumpable in Hpd.
        apply andb_true_iff in Hpd as [Hsteps Hmeta].
        match goal with
        | |- context [Wire._save_plan can_open can_write self ?p disk] =>
            assert (Hp2 : Wire.plan_dumpable p
                          = Wire.dumpable (Wire.PDict data))
              by (unfold Wire.plan_dumpable;
                  cbn [Wire.steps Wire.metadata Wire.set_metadata];
                  rewrite Hsteps; cbn [andb];
                  apply dumpable_insert_checkpoint; exact Hmeta);
            apply (Hend p); [exact Htid|];
            destruct (Hsave p Htid Hp2)
              as [Hs|[(Ho & Hp & Hpd & Hs)|(Ho & f & Hf & Hs)]]; rewrite Hs;
            [left; reflexivity
            |right; left; done
            |right; right; split; [done|]; exists f; done]
        end.
      * left. exists Wire.DecodeError. done.
    + left. exists Wire.DecodeError. done.
    + left. eexists. split; [|split; [|reflexivity]]; discriminate.
Qed.

(** *** The invariant of the disk *)

Lemma wire_disk_ok_empty (self : ProgressTracker) : Wire.disk_ok self ∅.
Proof. intros tid d _ H. rewrite lookup_empty in H. discriminate. Qed.

Lemma wire_disk_ok_run_call (can_open : string -> bool)
    (can_write : string -> PlanDoc -> bool) (self : ProgressTracker)
    (c : Wire.call) (disk : Wire.Disk) :
  Wire.disk_ok self disk ->
  Wire.plain (Wire.call_task c) = true ->
  Wire.disk_ok self (snd (Wire.run_call can_open can_write self c disk)).
Proof.
  intros Hok Hplain.
  destruct (wire_run_call_cases can_open can_write self c disk Hok Hplain)
    as [(f & _ & _ & ->)|[(_ & _ & plan & Htid & _ & ->)|(_ & f & _ & ->)]];
    cbn [snd]; [exact Hok| |]; intros tid d Hp Hd.
  - destruct (decide (tid = Wire.call_task c)) as [->|Hne].
    + rewrite lookup_insert_eq in Hd. injection Hd as <-. exact Htid.
    + rewrite lookup_insert_ne in Hd; [exact (Hok tid d Hp Hd)|].
      intros H. apply plan_file_inj in H; [congruence|assumption..].
  - destruct (decide (tid = Wire.call_task c)) as [->|Hne].
    + rewrite lookup_insert_eq in Hd. discriminate.
    + rewrite lookup_insert_ne in Hd; [exact (Hok tid d Hp Hd)|].
      intros H. apply plan_file_inj in H; [congruence|assumption..].
Qed.

Lemma wire_disk_ok_run_calls (can_open : string -> bool)
    (can_write : string -> PlanDoc -> bool) (self : ProgressTracker)
    (cs : list Wire.call) (disk : Wire.Disk) :
  Wire.disk_ok self disk ->
  Forall (fun c => Wire.plain (Wire.call_task c) = true) cs ->
  Wire.disk_ok self (Wire.run_calls can_open can_write self cs disk).
Proof.
  intros Hok Hcs. revert disk Hok.
  induction Hcs as [|c cs Hc _ IH]; intros disk Hok; [exact Hok|].
  apply IH, wire_disk_ok_run_call; assumption.
Qed.

Lemma demo_disk_ok : Wire.disk_ok spool demo_disk.
Proof.
  apply wire_disk_ok_run_calls; [apply wire_disk_ok_empty|].
  repeat constructor.
Qed.

(** A call writes no file but the one of the task it addresses. *)
Lemma wire_run_call_other_file (can_open : string -> bool)
    (can_write : string -> PlanDoc -> bool) (self : ProgressTracker)
    (c : Wire.call) (disk : Wire.Disk) (tid : string) :
  Wire.disk_ok self disk ->
  Wire.plain tid = true ->
  Wire.plain (Wire.call_task c) = true ->
  Wire.call_task c <> tid ->
  snd (Wire.run_call can_open can_write self c disk) !! plan_file self tid
  = disk !! plan_file self tid.
Proof.
  intros Hok Hp Hpc Hne.
  assert (Hfile : plan_file self (Wire.call_task c) <> plan_file self tid)
    by (intros H; apply plan_file_inj in H; [congruence|assumption..]).
  destruct (wire_run_call_cases can_open can_write self c disk Hok Hpc)
    as [(f & _ & _ & ->)|[(_ & _ & plan & Htid & _ & ->)|(_ & f & _ & ->)]];
    cbn [snd]; [reflexivity| |]; apply lookup_insert_ne; exact Hfile.
Qed.

(** ** Checkpoints through the file *)

(** C6, as the specification has it, fails for a payload with a tuple in
    it: [checkpoint("t1", {"pair": (1, 2)})] returns, and
    [restore_checkpoint("t1")] then returns [{"pair": [1, 2]}]. *)
Lemma checkpoint_tuple_restored_as_list :
  ~ restores_unchanged open_always write_always spool (mkTracker "/p")
      "10:30" "t1" pair_payload demo_disk.
Proof.
  intros H.
  specialize (H (snd (Wire.checkpoint open_always write_always spool
                        "10:30" "t1" pair_payload demo_disk))).
  assert (Hrun : Wire.checkpoint open_always write_always spool
                   "10:30" "t1" pair_payload demo_disk
                 = (Wire.Returns tt,
                    snd (Wire.checkpoint open_always write_always spool
                           "10:30" "t1" pair_payload demo_disk)))
    by (vm_compute; reflexivity).
  specialize (H Hrun).
  apply (f_equal
           (fun r => match fst r with
                     | Wire.Returns (Wire.PDict d) =>
                         match d !! "pair" with
                         | Some (Wire.PTuple _) => true
                         | _ => false
                         end
                     | _ => false
                     end)) in H.
  vm_compute in H. discriminate H.
Qed.

(** C6, amended.  After a [checkpoint(task_id, X)] that returned, on a plan
    stored for [task_id], [restore_checkpoint(task_id)], also from another
    tracker object built over the same storage root, returns [X] as JSON
    carries it, with tuples as lists; it returns [X] unchanged when [X] is
    a value JSON carries unchanged: built from [None], booleans, ints,
    floats other than NaN, strings, lists and dicts with string keys. *)
Theorem restore_after_checkpoint_clean (can_open : string -> bool)
    (can_write : string -> PlanDoc -> bool) (self other : ProgressTracker)
    (now tid : string) (X : Wire.pydict) (plan : Wire.TaskPlan)
    (disk disk' : Wire.Disk) :
  state_dir other = state_dir self ->
  Wire.load_plan self tid disk = (Wire.Returns (Some plan), disk) ->
  Wire.task_id plan = tid ->
  Wire.checkpoint can_open can_write self now tid X disk
    = (Wire.Returns tt, disk') ->
  Wire.restore_checkpoint self tid disk'
    = (Wire.Returns (Wire.of_json (Wire.to_json (Wire.PDict X))), disk') /\
  Wire.restore_checkpoint other tid disk'
    = (Wire.Returns (Wire.of_json (Wire.to_json (Wire.PDict X))), disk') /\
  (Wire.clean (Wire.PDict X) = true ->
   Wire.restore_checkpoint self tid disk' = (Wire.Returns (Wire.PDict X), disk') /\
   Wire.restore_checkpoint other tid disk' = (Wire.Returns (Wire.PDict X), disk')).
Proof.
  intros Hdir Hload Htid Hck.
  assert (Hother : other = self) by (destruct other, self; simpl in *; congruence).
  subst other.
  unfold Wire.checkpoint in Hck. rewrite Hload in Hck.
  unfold Wire._save_plan in Hck. cbn [Wire.task_id Wire.set_metadata] in Hck.
  rewrite Htid in Hck.
  destruct (can_open (plan_file self tid)); [|discriminate].
  match type of Hck with
  | context [Wire.plan_dumpable ?p] =>
      destruct (Wire.plan_dumpable p) eqn:Hp; [|discriminate];
      destruct (can_write (plan_file self tid) (Wire.plan_to_doc p));
        [|discriminate];
      pose proof (plan_dumpable_loadable p Hp) as Hl
  end.
  injection Hck as <-.
  match goal with
  | |- ?R = _ /\ _ =>
      assert (Hrestore : R = (Wire.Returns
                (Wire.of_json (Wire.to_json (Wire.PDict X))),
                <[plan_file self tid := Wire.Document (Wire.plan_to_doc
                    (Wire.set_metadata
                       (<["last_checkpoint" := Wire.checkpoint_entry now X]>
                          (Wire.metadata plan)) plan))]> disk))
  end.
  { unfold Wire.restore_checkpoint.
    erewrite wire_load_plan_Document;
      [|apply lookup_insert_eq|exact Hl].
    cbn [Wire.plan_of_doc Wire.plan_to_doc Wire.metadata Wire.set_metadata].
    unfold Wire.dict_of_json, Wire.dict_to_json.
    rewrite !lookup_fmap, lookup_insert_eq.
    cbn [fmap option_fmap option_map default from_option Datatypes.id
         Wire.to_json Wire.of_json Wire.checkpoint_entry].
    rewrite !lookup_fmap, lookup_insert_ne by discriminate.
    rewrite lookup_singleton_eq. reflexivity. }
  split; [exact Hrestore|]. split; [exact Hrestore|].
  intros Hclean. rewrite Hrestore.
  rewrite (of_json_to_json (Wire.PDict X) Hclean). split; reflexivity.
Qed.

Lemma restore_after_checkpoint_clean_witness :
  Wire.restore_checkpoint (mkTracker "/p") "t1"
    (snd (Wire.checkpoint open_always write_always spool "10:30" "t1"
            cursor_payload demo_disk))
  = (Wire.Returns (Wire.PDict cursor_payload),
     snd (Wire.checkpoint open_always write_always spool "10:30" "t1"
            cursor_payload demo_disk)).
Proof.
  destruct (restore_after_checkpoint_clean open_always write_always spool
              (mkTracker "/p") "10:30" "t1" cursor_payload spool_plan demo_disk
              (snd (Wire.checkpoint open_always write_always spool "10:30" "t1"
                      cursor_payload demo_disk)))
    as (_ & _ & Hclean).
  - reflexivity.
  - vm_compute. reflexivity.
  - reflexivity.
  - vm_compute. reflexivity.
  - apply Hclean. vm_compute. reflexivity.
Defined.

(** ** Creating a plan on a disk that can fail *)

(** X1. A [create_plan] that returns has opened the plan file of [task_id]
    and replaced whatever it held.  The plan it returns has one step per
    description, in order, with id ["<task_id>_step_<i>"], status
    ["pending"] and nothing else set; counters at 0, both timestamps at
    the time of the call, and the caller's metadata, or [{}] without one.
    [load_plan] then finds that plan with the metadata as JSON carries it,
    tuples turned into lists: the very plan when the metadata is a value
    JSON carries unchanged. *)
Theorem create_plan_stores (can_open : string -> bool)
    (can_write : string -> PlanDoc -> bool) (self : ProgressTracker)
    (now tid ttl : string) (descs : list string) (meta : option Wire.pydict)
    (disk disk' : Wire.Disk) (plan : Wire.TaskPlan) :
  Wire.create_plan can_open can_write self now tid ttl descs meta disk
    = (Wire.Returns plan, disk') ->
  can_open (plan_file self tid) = true /\
  disk' = <[plan_file self tid := Wire.Document (Wire.plan_to_doc plan)]> disk /\
  Wire.task_id plan = tid /\ Wire.title plan = ttl /\
  Wire.created_at plan = now /\ Wire.updated_at plan = now /\
  Wire.total_steps plan = Z.of_nat (length descs) /\
  Wire.completed_steps plan = 0 /\ Wire.current_step_index plan = 0 /\
  Wire.metadata plan = default ∅ meta /\
  length (Wire.steps plan) = length descs /\
  (forall i desc, descs !! i = Some desc ->
     Wire.steps plan !! i
       = Some {| Wire.id := tid +:+ "_step_" +:+ pretty i;
                 Wire.description := desc;
                 Wire.status := "pending";
                 Wire.started_at := None;
                 Wire.completed_at := None;
                 Wire.error := None;
                 Wire.output := None |}) /\
  Wire.load_plan self tid disk'
    = (Wire.Returns
         (Some (Wire.set_metadata
                  (Wire.dict_of_json (Wire.dict_to_json (Wire.metadata plan)))
                  plan)),
       disk') /\
  (Wire.clean (Wire.PDict (Wire.metadata plan)) = true ->
   Wire.load_plan self tid disk' = (Wire.Returns (Some plan), disk')).
Proof.
  unfold Wire.create_plan, Wire._save_plan. cbn [Wire.task_id].
  destruct (can_open (plan_file self tid)) eqn:Hopen; [|discriminate].
  match goal with
  | |- context [Wire.plan_dumpable ?p] =>
      destruct (Wire.plan_dumpable p) eqn:Hp; [|discriminate];
      destruct (can_write (plan_file self tid) (Wire.plan_to_doc p));
        [|discriminate];
      pose proof (plan_dumpable_loadable p Hp) as Hl
  end.
  intros [= <- <-].
  assert (Hmeta : Wire.or_empty meta = default ∅ meta).
  { destruct meta as [d|]; [|reflexivity]. simpl. unfold Wire.dict_truthy.
    destruct (Nat.eqb (size d) 0) eqn:E; [|reflexivity].
    apply Nat.eqb_eq in E. apply map_size_empty_iff in E. subst d. reflexivity. }
  assert (Hfound : Wire.load_plan self tid
            (<[plan_file self tid := Wire.Document (Wire.plan_to_doc
                 {| Wire.task_id := tid; Wire.title := ttl;
                    Wire.steps := imap (Wire.new_step tid) descs;
                    Wire.created_at := now; Wire.updated_at := now;
                    Wire.total_steps :=
                      Z.of_nat (length (imap (Wire.new_step tid) descs));
                    Wire.completed_steps := 0; Wire.current_step_index := 0;
                    Wire.metadata := Wire.or_empty meta |})]> disk)
          = (Wire.Returns
               (Some (Wire.set_metadata
                  (Wire.dict_of_json (Wire.dict_to_json (Wire.or_empty meta)))
                  {| Wire.task_id := tid; Wire.title := ttl;
                     Wire.steps := imap (Wire.new_step tid) descs;
                     Wire.created_at := now; Wire.updated_at := now;
                     Wire.total_steps :=
                       Z.of_nat (length (imap (Wire.new_step tid) descs));
                     Wire.completed_steps := 0; Wire.current_step_index := 0;
                     Wire.metadata := Wire.or_empty meta |})),
             <[plan_file self tid := Wire.Document (Wire.plan_to_doc
                 {| Wire.task_id := tid; Wire.title := ttl;
                    Wire.steps := imap (Wire.new_step tid) descs;
                    Wire.created_at := now; Wire.updated_at := now;
                    Wire.total_steps :=
                      Z.of_nat (length (imap (Wire.new_step tid) descs));
                    Wire.completed_steps := 0; Wire.current_step_index := 0;
                    Wire.metadata := Wire.or_empty meta |})]> disk)).
  { erewrite wire_load_plan_Document; [|apply lookup_insert_eq|exact Hl].
    unfold Wire.plan_to_doc, Wire.set_metadata. cbn.
    rewrite new_steps_of_doc. reflexivity. }
  cbn [Wire.task_id Wire.title Wire.created_at Wire.updated_at Wire.total_steps
       Wire.completed_steps Wire.current_step_index Wire.metadata Wire.steps].
  split; [reflexivity|]. split; [reflexivity|].
  repeat (split; [reflexivity|]).
  split; [rewrite length_imap; reflexivity|].
  split; [reflexivity|]. split; [reflexivity|].
  split; [exact Hmeta|].
  split; [apply length_imap|].
  split; [intros i desc Hi; rewrite list_lookup_imap, Hi; reflexivity|].
  split; [exact Hfound|].
  intros Hclean. rewrite Hfound.
  rewrite (dict_of_json_to_json _ Hclean). reflexivity.
Qed.

Lemma create_plan_stores_witness :
  Wire.steps spool_plan !! 1%nat
    = Some {| Wire.id := "t1_step_1";
              Wire.description := "step B";
              Wire.status := "pending";
              Wire.started_at := None;
              Wire.completed_at := None;
              Wire.error := None;
              Wire.output := None |} /\
  Wire.load_plan spool "t1" demo_disk = (Wire.Returns (Some spool_plan), demo_disk).
Proof.
  destruct (create_plan_stores open_always write_always spool "09:00" "t1"
              "Demo" [ "step A"; "step B" ] None ∅ demo_disk spool_plan)
    as (_ & _ & _ & _ & _ & _ & _ & _ & _ & _ & _ & Hsteps & _ & Hload).
  - vm_compute. reflexivity.
  - split; [apply (Hsteps 1%nat "step B"); reflexivity|].
    apply Hload. vm_compute. reflexivity.
Defined.

(** ** A call that raises *)

(** X4. What a [create_plan], [update_step] or [checkpoint] that raises
    leaves behind, for a plain task id and a disk where the file of a task
    holds the plan of that task.  When the failure comes before the file is
    opened (the
    task is not found, the plan file cannot be read, the index is out of
    range, [open] refuses the path) the disk is as it was.  When
    [json.dump] refuses the payload the caller handed over, or the file
    system refuses the text, the plan file of the task has already been
    emptied: the plan is lost, and [load_plan], [restore_checkpoint],
    [update_step] and [checkpoint] on that task raise from then on. *)
Theorem failed_call_effects (can_open : string -> bool)
    (can_write : string -> PlanDoc -> bool) (self : ProgressTracker)
    (c : Wire.call) (f : Wire.failure) (disk disk' : Wire.Disk) :
  Wire.disk_ok self disk ->
  Wire.plain (Wire.call_task c) = true ->
  Wire.run_call can_open can_write self c disk = (Some f, disk') ->
  (f <> Wire.EncodeError /\ f <> Wire.WriteError /\ disk' = disk) \/
  ((f = Wire.EncodeError /\
    Wire.dumpable (Wire.PDict (Wire.call_payload c)) = false \/
    f = Wire.WriteError /\
    Wire.dumpable (Wire.PDict (Wire.call_payload c)) = true) /\
   disk' = <[plan_file self (Wire.call_task c) := Wire.Partial]> disk /\
   Wire.load_plan self (Wire.call_task c) disk'
     = (Wire.Raises Wire.DecodeError, disk') /\
   Wire.restore_checkpoint self (Wire.call_task c) disk'
     = (Wire.Raises Wire.DecodeError, disk') /\
   (forall now i st out err,
      Wire.update_step can_open can_write self now (Wire.call_task c) i st
        out err disk'
      = (Wire.Raises Wire.DecodeError, disk')) /\
   (forall now data,
      Wire.checkpoint can_open can_write self now (Wire.call_task c) data disk'
      = (Wire.Raises Wire.DecodeError, disk'))).
Proof.
  intros Hok Hplain Hrun.
  destruct (wire_run_call_cases can_open can_write self c disk Hok Hplain)
    as [(f' & Hf1 & Hf2 & Heq)|[(_ & _ & plan & _ & _ & Heq)|(_ & f' & Hf & Heq)]];
    rewrite Heq in Hrun.
  - injection Hrun as <- <-. left. done.
  - discriminate.
  - injection Hrun as <- <-. right. split; [exact Hf|]. split; [reflexivity|].
    assert (Hload : Wire.load_plan self (Wire.call_task c)
              (<[plan_file self (Wire.call_task c) := Wire.Partial]> disk)
            = (Wire.Raises Wire.DecodeError,
               <[plan_file self (Wire.call_task c) := Wire.Partial]> disk))
      by (apply wire_load_plan_Partial, lookup_insert_eq).
    split; [exact Hload|].
    split; [unfold Wire.restore_checkpoint; rewrite Hload; reflexivity|].
    split.
    + intros. unfold Wire.update_step. rewrite Hload. reflexivity.
    + intros. unfold Wire.checkpoint. rewrite Hload. reflexivity.
Qed.

Lemma failed_call_effects_witness :
  Wire.load_plan spool "t1"
    (<[plan_file spool "t1" := Wire.Partial]> demo_disk)
  = (Wire.Raises Wire.DecodeError,
     <[plan_file spool "t1" := Wire.Partial]> demo_disk).
Proof.
  destruct (failed_call_effects open_always write_always spool
              (Wire.Checkpoint "10:30" "t1" set_payload) Wire.EncodeError
              demo_disk (<[plan_file spool "t1" := Wire.Partial]> demo_disk))
    as [(Hne & _)|(_ & _ & Hload & _)].
  - apply demo_disk_ok.
  - reflexivity.
  - vm_compute. reflexivity.
  - exfalso. apply Hne. reflexivity.
  - exact Hload.
Defined.

(** An int of more than 4300 digits is refused as well. *)
Example huge_int_not_written :
  Wire.run_call open_always write_always spool
    (Wire.Checkpoint "10:30" "t1" huge_payload) demo_disk
  = (Some Wire.EncodeError, <[plan_file spool "t1" := Wire.Partial]> demo_disk).
Proof. vm_compute. reflexivity. Qed.

(** ** Tasks do not interfere *)

(** X3. Calls on other tasks, whether they return or raise, leave the plan
    file of a task as it was, when the task ids are plain file names. *)
Theorem other_tasks_untouched_plain (can_open : string -> bool)
    (can_write : string -> PlanDoc -> bool) (self : ProgressTracker)
    (cs : list Wire.call) (tid : string) (disk : Wire.Disk) :
  Wire.disk_ok self disk ->
  Wire.plain tid = true ->
  Forall (fun c => Wire.plain (Wire.call_task c) = true /\
                   Wire.call_task c <> tid) cs ->
  Wire.run_calls can_open can_write self cs disk !! plan_file self tid
    = disk !! plan_file self tid /\
  Wire.load_plan self tid (Wire.run_calls can_open can_write self cs disk)
    = (fst (Wire.load_plan self tid disk),
       Wire.run_calls can_open can_write self cs disk).
Proof.
  intros Hok Hp Hcs.
  assert (Hfile : Wire.run_calls can_open can_write self cs disk
                    !! plan_file self tid = disk !! plan_file self tid).
  { revert disk Hok. induction Hcs as [|c cs [Hpc Hne] _ IH]; intros disk Hok;
      [reflexivity|].
    cbn [Wire.run_calls fold_left].
    change (fold_left _ cs ?d) with (Wire.run_calls can_open can_write self cs d).
    rewrite IH by (apply wire_disk_ok_run_call; assumption).
    apply wire_run_call_other_file; assumption. }
  split; [exact Hfile|].
  unfold Wire.load_plan. rewrite Hfile.
  destruct (disk !! plan_file self tid) as [[d|]|]; [|reflexivity..].
  destruct (Wire.doc_loadable d); reflexivity.
Qed.

Lemma other_tasks_untouched_plain_witness :
  Wire.run_calls open_always write_always spool
    [ Wire.CreatePlan "11:00" "t2" "Other" [ "only" ] (Some set_payload);
      Wire.UpdateStep "11:05" "t2" 0 "completed" None None ] demo_disk
    !! plan_file spool "t1"
  = demo_disk !! plan_file spool "t1" /\
  Wire.load_plan spool "t1"
    (Wire.run_calls open_always write_always spool
       [ Wire.CreatePlan "11:00" "t2" "Other" [ "only" ] (Some set_payload);
         Wire.UpdateStep "11:05" "t2" 0 "completed" None None ] demo_disk)
  = (fst (Wire.load_plan spool "t1" demo_disk),
     Wire.run_calls open_always write_always spool
       [ Wire.CreatePlan "11:00" "t2" "Other" [ "only" ] (Some set_payload);
         Wire.UpdateStep "11:05" "t2" 0 "completed" None None ] demo_disk).
Proof.
  apply (other_tasks_untouched_plain open_always write_always spool).
  - apply demo_disk_ok.
  - reflexivity.
  - repeat constructor; discriminate.
Defined.

(** ** Checkpoints and step updates *)


